(** * The 2D label canvas viewer and the tool bar of the labeling page

    A shallow embedding of

    - [components/label2d_viewer.tsx]  (class [Label2dViewer]),
    - [components/viewer.ts]           (abstract class [Viewer]),
    - the tool bar component           (class [ToolBar], [onDeleteLabel]),

    together with the part of the browser they talk to: the document's
    listener table, the handlers React attaches to the label canvas, the
    raster behind the two canvases and the session store.

    Conventions.

    - A JavaScript [number] is a [number]: a rational, one of the two
      infinities, or [NaN].  Every finite double is a rational; comparison,
      product and quotient follow IEEE 754 on these values.  The rounding
      of doubles, overflow included, and the sign of zero are outside the
      model.  Indices and mouse buttons are integers ([Z]).
    - A nullable reference [T | null] is [option T].
    - The methods mutate [this] and the page around it; they are written in
      a state monad over [World], and every call that leaves the component
      (to the label list, to a canvas, to the event) is also logged in
      [trace], oldest call first.
    - [../view/image] and [../drawable/label2d_list] are imported by the
      sources but are not among them: their members are the fields of the
      interfaces [ImageView] and [Label2DListOps], and every theorem about
      the viewer holds for all their implementations. *)

From Stdlib Require Import ZArith QArith List Bool Lia.
From stdpp Require Import gmap strings.

Import ListNotations.
Open Scope string_scope.
Open Scope list_scope.
Open Scope Z_scope.

(** ** Numbers *)

Inductive number :=
| Num (q : Q)
| PosInfinity
| NegInfinity
| NaN.

Bind Scope Q_scope with number.
Coercion Num : Q >-> number.

Definition Qlt_bool (x y : Q) : bool := negb (Qle_bool y x).

(** [a < b]: false as soon as one side is [NaN]. *)
Definition number_ltb (a b : number) : bool :=
  match a, b with
  | NaN, _ | _, NaN => false
  | Num x, Num y => Qlt_bool x y
  | NegInfinity, NegInfinity => false
  | NegInfinity, _ => true
  | _, NegInfinity => false
  | PosInfinity, _ => false
  | _, PosInfinity => true
  end.

(** [a <= b], and [b >= a]: false as soon as one side is [NaN]. *)
Definition number_leb (a b : number) : bool :=
  match a, b with
  | NaN, _ | _, NaN => false
  | Num x, Num y => Qle_bool x y
  | NegInfinity, _ => true
  | _, PosInfinity => true
  | _, _ => false
  end.

Definition signed_infinity (positive : bool) : number :=
  if positive then PosInfinity else NegInfinity.

(** [a * b]. *)
Definition number_mul (a b : number) : number :=
  match a, b with
  | NaN, _ | _, NaN => NaN
  | Num x, Num y => Num (x * y)
  | Num x, PosInfinity | PosInfinity, Num x =>
    if Qeq_bool x 0 then NaN else signed_infinity (Qlt_bool 0 x)
  | Num x, NegInfinity | NegInfinity, Num x =>
    if Qeq_bool x 0 then NaN else signed_infinity (Qlt_bool x 0)
  | PosInfinity, PosInfinity | NegInfinity, NegInfinity => PosInfinity
  | _, _ => NegInfinity
  end.

(** [a / b]; a zero divisor counts as positive zero. *)
Definition number_div (a b : number) : number :=
  match a, b with
  | NaN, _ | _, NaN => NaN
  | Num x, Num y =>
    if Qeq_bool y 0
    then if Qeq_bool x 0 then NaN else signed_infinity (Qlt_bool 0 x)
    else Num (x / y)
  | Num _, _ => Num 0
  | PosInfinity, Num y => signed_infinity (negb (Qlt_bool y 0))
  | NegInfinity, Num y => signed_infinity (Qlt_bool y 0)
  | _, _ => NaN
  end.

Declare Scope js_scope.
Delimit Scope js_scope with js.
Infix "*" := number_mul : js_scope.
Infix "/" := number_div : js_scope.
Notation "a < b" := (number_ltb a b = true) : js_scope.
Notation "a <= b" := (number_leb a b = true) : js_scope.

(** [a] and [b] are the same value; a rational has many fractions. *)
Definition number_eq (a b : number) : Prop :=
  match a, b with
  | Num x, Num y => (x == y)%Q
  | PosInfinity, PosInfinity | NegInfinity, NegInfinity | NaN, NaN => True
  | _, _ => False
  end.

(** ** Values *)

(** [math/vector2d]: [new Vector2D(x, y)]. *)
Record Vector2D := mkVector2D { vx : number; vy : number }.

(** [getBoundingClientRect()]. *)
Record DOMRect := mkDOMRect
  { rect_left : number; rect_top : number;
    rect_width : number; rect_height : number }.

(** The [key] props of the two canvases in [render]. *)
Inductive CanvasKey := ControlCanvasKey | LabelCanvasKey.

Record HTMLDivElement := mkDiv { div_rect : DOMRect }.

(** A 2d context is a handle on the raster of its canvas. *)
Record CanvasRenderingContext2D := mkCtx { ctx_canvas : CanvasKey }.

(** [getContext2d] is the value of [canvas.getContext('2d')], which the
    browser may answer with [null]. *)
Record HTMLCanvasElement := mkCanvas
  { canvas_key : CanvasKey;
    canvas_rect : DOMRect;
    getContext2d : option CanvasRenderingContext2D }.

(** [ImageData.data]: the RGBA bytes of the sampled block. *)
Definition ImageData := list Z.

(** The fields of a mouse event the handlers read. *)
Record MouseEvent := mkMouseEvent
  { button : Z; clientX : number; clientY : number }.

Record KeyboardEvent := mkKeyboardEvent { key : string }.

(** ** The session store

    [functional/types] is imported but not among the sources; [State] has
    the members the code reads. *)

Record Select := mkSelect { select_item : Z; select_label : Z }.

Record ImageViewerConfigType := mkConfig { viewScale : number }.

Record State := mkState
  { user_select : Select;
    image_viewer_config : ImageViewerConfigType;
    image_size : Vector2D }.

(** [getCurrentImageViewerConfig(state)] of [functional/state_util]. *)
Definition getCurrentImageViewerConfig (s : State) : ImageViewerConfigType :=
  image_viewer_config s.

(** Actions built by [action/common] and [action/tag]; an action carries the
    arguments its creator was called with. *)
Inductive Action :=
| deleteLabel (itemIndex labelId : Z)
| addLabelTag (attributeIndex selectedIndex : Z).

(** [Session]: [getState()] reads [session_state]; [dispatch(a)] hands [a]
    to the store, recorded in [dispatched], oldest first.  The reducer is
    not part of the sources. *)
Record SessionStore := mkSession
  { session_state : State; dispatched : list Action }.

Definition Session_dispatch (a : Action) (s : SessionStore) : SessionStore :=
  {| session_state := session_state s; dispatched := dispatched s ++ [a] |}.

(** ** Truthiness *)

(** A number is falsy exactly when it is zero or [NaN]. *)
Definition truthy_number (n : number) : bool :=
  match n with
  | Num q => negb (Qeq_bool q 0)
  | NaN => false
  | _ => true
  end.

(** [undefined] is falsy; a boolean is its own truth value. *)
Definition truthy_flag (b : option bool) : bool := from_option id false b.

(** ** The interfaces of the modules that are imported but not shown *)

(** [../view/image].  [Raster] is what the canvases of the page hold
    (pixels and transforms). *)
Class ImageView := {
  Raster : Type;
  MIN_SCALE : Q;
  MAX_SCALE : Q;
  UP_RES_RATIO : Q;
  clearCanvas :
    HTMLCanvasElement -> CanvasRenderingContext2D -> Raster -> Raster;
  getImageData :
    CanvasRenderingContext2D -> number -> number -> Z -> Z -> Raster ->
    ImageData;
  imageDataToHandleId : ImageData -> Z * Z;
  normalizeMouseCoordinates :
    HTMLDivElement -> HTMLCanvasElement ->
    number -> number -> number -> number -> number -> Vector2D;
  toCanvasCoords : Vector2D -> bool -> number -> number * number;
  updateCanvasScale :
    HTMLDivElement -> HTMLCanvasElement -> CanvasRenderingContext2D ->
    ImageViewerConfigType -> number -> bool -> Raster ->
    (number * number * number * number) * Raster;
  getCurrentImageSize : State -> Vector2D
}.

(** [../drawable/label2d_list]: the class [Label2DList]; [Label2DList] is
    the state of one instance. *)
Class Label2DListOps `{ImageView} := {
  Label2DList : Type;
  new_Label2DList : Label2DList;
  labels_updateState : State -> Z -> Label2DList -> Label2DList;
  labels_redraw :
    CanvasRenderingContext2D -> CanvasRenderingContext2D -> number ->
    Label2DList -> Raster -> Raster;
  labels_onMouseDown :
    Vector2D -> Z -> Z -> Label2DList -> bool * Label2DList;
  labels_onMouseUp : Vector2D -> Z -> Z -> Label2DList -> Label2DList;
  labels_onMouseMove :
    Vector2D -> Vector2D -> Z -> Z -> Label2DList -> bool * Label2DList
}.

(** ** The document *)

(** The bound methods that the components hand to the browser. *)
Inductive Handler :=
| mouseDownHandler
| mouseUpHandler
| mouseMoveHandler
| keyDownHandler
| keyUpHandler
| toolBarKeyDownHandler.

Definition Handler_eqb (a b : Handler) : bool :=
  match a, b with
  | mouseDownHandler, mouseDownHandler
  | mouseUpHandler, mouseUpHandler
  | mouseMoveHandler, mouseMoveHandler
  | keyDownHandler, keyDownHandler
  | keyUpHandler, keyUpHandler
  | toolBarKeyDownHandler, toolBarKeyDownHandler => true
  | _, _ => false
  end.

(** One entry of a listener table: event type and callback. *)
Definition Listener : Type := string * Handler.

Definition Listener_eqb (a b : Listener) : bool :=
  String.eqb (fst a) (fst b) && Handler_eqb (snd a) (snd b).

(** [addEventListener]: a listener that is already registered for the type
    is not registered again. *)
Definition addEventListener
    (type : string) (h : Handler) (ls : list Listener) : list Listener :=
  if existsb (Listener_eqb (type, h)) ls then ls else ls ++ [(type, h)].

(** [removeEventListener]. *)
Definition removeEventListener
    (type : string) (h : Handler) (ls : list Listener) : list Listener :=
  List.filter (fun l => negb (Listener_eqb (type, h) l)) ls.

(** The callbacks registered for one event type, in registration order. *)
Definition listenersFor (type : string) (ls : list Listener) : list Handler :=
  map snd (List.filter (fun l => String.eqb type (fst l)) ls).

(** ** The effects a viewer has on the rest of the page *)

Inductive Effect :=
| CallClearCanvas
    (canvas : HTMLCanvasElement) (context : CanvasRenderingContext2D)
| CallGetImageData
    (context : CanvasRenderingContext2D) (x y : number) (w h : Z)
| CallUpdateCanvasScale
    (display : HTMLDivElement) (canvas : HTMLCanvasElement)
    (context : CanvasRenderingContext2D) (config : ImageViewerConfigType)
    (zoomRatio : number) (upRes : bool)
| SetStyleCursor (canvas : HTMLCanvasElement) (cursor : string)
| StopPropagation (e : MouseEvent)
| LabelsUpdateState (state : State) (itemIndex : Z)
| LabelsRedraw
    (labelContext controlContext : CanvasRenderingContext2D) (ratio : number)
| LabelsOnMouseDown (mousePos : Vector2D) (labelIndex handleIndex : Z)
| LabelsOnMouseUp (mousePos : Vector2D) (labelIndex handleIndex : Z)
| LabelsOnMouseMove
    (mousePos imageSize : Vector2D) (labelIndex handleIndex : Z).

Definition is_LabelsOnMouseDown (f : Effect) : bool :=
  match f with LabelsOnMouseDown _ _ _ => true | _ => false end.

Definition is_LabelsOnMouseUp (f : Effect) : bool :=
  match f with LabelsOnMouseUp _ _ _ => true | _ => false end.

Definition is_LabelsOnMouseMove (f : Effect) : bool :=
  match f with LabelsOnMouseMove _ _ _ _ => true | _ => false end.

(** A call of one of the three pointer methods of the label list. *)
Definition is_forward (f : Effect) : bool :=
  is_LabelsOnMouseDown f || is_LabelsOnMouseUp f || is_LabelsOnMouseMove f.

Definition is_CallGetImageData (f : Effect) : bool :=
  match f with CallGetImageData _ _ _ _ _ => true | _ => false end.

Definition is_SetStyleCursor (f : Effect) : bool :=
  match f with SetStyleCursor _ _ => true | _ => false end.

(** A call that paints or clears. *)
Definition is_drawing (f : Effect) : bool :=
  match f with
  | CallClearCanvas _ _ | LabelsRedraw _ _ _ => true
  | _ => false
  end.

Section Viewer.

Context `{LL : Label2DListOps}.

(** ** The component and the page *)

(** The fields of [Label2dViewer].  The five bound handlers are constants
    of the instance and are named by [Handler]. *)
Record Label2dViewer := mkViewer
  { labelContext : option CanvasRenderingContext2D;
    controlContext : option CanvasRenderingContext2D;
    _labels : Label2DList;
    labelCanvas : option HTMLCanvasElement;
    controlCanvas : option HTMLCanvasElement;
    display : option HTMLDivElement;
    scale : number;
    canvasHeight : number;
    canvasWidth : number;
    displayToImageRatio : number;
    _keyDownMap : gmap string bool }.

(** The viewer with what it reads and writes: its props, the store, the
    canvases of the page, the document's listeners, and the log. *)
Record World := mkWorld
  { this : Label2dViewer;
    props_display : option HTMLDivElement;
    session : SessionStore;
    raster : Raster;
    document_listeners : list Listener;
    trace : list Effect }.

Definition M (A : Type) : Type := World -> A * World.

Definition ret {A} (a : A) : M A := fun w => (a, w).

Definition bind {A B} (m : M A) (k : A -> M B) : M B :=
  fun w => let (a, w1) := m w in k a w1.

Definition get_this : M Label2dViewer := fun w => (this w, w).

Definition modify_this (f : Label2dViewer -> Label2dViewer) : M unit :=
  fun w =>
    (tt, {| this := f (this w);
            props_display := props_display w;
            session := session w;
            raster := raster w;
            document_listeners := document_listeners w;
            trace := trace w |}).

Definition modify_raster (f : Raster -> Raster) : M unit :=
  fun w =>
    (tt, {| this := this w;
            props_display := props_display w;
            session := session w;
            raster := f (raster w);
            document_listeners := document_listeners w;
            trace := trace w |}).

Definition modify_document (f : list Listener -> list Listener) : M unit :=
  fun w =>
    (tt, {| this := this w;
            props_display := props_display w;
            session := session w;
            raster := raster w;
            document_listeners := f (document_listeners w);
            trace := trace w |}).

Definition modify_session (f : SessionStore -> SessionStore) : M unit :=
  fun w =>
    (tt, {| this := this w;
            props_display := props_display w;
            session := f (session w);
            raster := raster w;
            document_listeners := document_listeners w;
            trace := trace w |}).

Definition log (f : Effect) : M unit :=
  fun w =>
    (tt, {| this := this w;
            props_display := props_display w;
            session := session w;
            raster := raster w;
            document_listeners := document_listeners w;
            trace := trace w ++ [f] |}).

Definition exec {A} (m : M A) (w : World) : World := snd (m w).
Definition eval {A} (m : M A) (w : World) : A := fst (m w).

(** The calls a computation adds to the log. *)
Definition emitted {A} (m : M A) (w : World) : list Effect :=
  skipn (length (trace w)) (trace (exec m w)).

(** The world with another set of keys held down. *)
Definition holding (keys : gmap string bool) (w : World) : World :=
  {| this :=
       {| labelContext := labelContext (this w);
          controlContext := controlContext (this w);
          _labels := _labels (this w);
          labelCanvas := labelCanvas (this w);
          controlCanvas := controlCanvas (this w);
          display := display (this w);
          scale := scale (this w);
          canvasHeight := canvasHeight (this w);
          canvasWidth := canvasWidth (this w);
          displayToImageRatio := displayToImageRatio (this w);
          _keyDownMap := keys |};
     props_display := props_display w;
     session := session w;
     raster := raster w;
     document_listeners := document_listeners w;
     trace := trace w |}.

Notation "'let!' x ':=' m 'in' k" := (bind m (fun x => k))
  (at level 10, x pattern, m at level 200, k at level 200).
Notation "m ;;; k" := (bind m (fun _ => k))
  (at level 100, k at level 200, right associativity).

(** ** Calls that leave the component

    Each one is logged, then has the effect and the result that the
    interface gives it. *)

(** [Session.getState()]; also the snapshot [this.state.session] that the
    base class [Component] keeps in step with the store. *)
Definition Session_getState : M State :=
  fun w => (session_state (session w), w).

Definition props : M (option HTMLDivElement) :=
  fun w => (props_display w, w).

Definition call_clearCanvas
    (canvas : HTMLCanvasElement) (context : CanvasRenderingContext2D)
  : M unit :=
  log (CallClearCanvas canvas context) ;;;
  modify_raster (clearCanvas canvas context).

Definition call_getImageData
    (context : CanvasRenderingContext2D) (x y : number) (sw sh : Z)
  : M ImageData :=
  log (CallGetImageData context x y sw sh) ;;;
  fun w => (getImageData context x y sw sh (raster w), w).

Definition call_updateCanvasScale
    (d : HTMLDivElement) (canvas : HTMLCanvasElement)
    (context : CanvasRenderingContext2D) (config : ImageViewerConfigType)
    (zoomRatio : number) (upRes : bool)
  : M (number * number * number * number) :=
  log (CallUpdateCanvasScale d canvas context config zoomRatio upRes) ;;;
  let! r :=
    (fun w =>
       (updateCanvasScale d canvas context config zoomRatio upRes (raster w),
        w)) in
  modify_raster (fun _ => snd r) ;;;
  ret (fst r).

Definition stopPropagation (e : MouseEvent) : M unit :=
  log (StopPropagation e).

Definition set_labels (l : Label2DList) (v : Label2dViewer) : Label2dViewer :=
  {| labelContext := labelContext v;
     controlContext := controlContext v;
     _labels := l;
     labelCanvas := labelCanvas v;
     controlCanvas := controlCanvas v;
     display := display v;
     scale := scale v;
     canvasHeight := canvasHeight v;
     canvasWidth := canvasWidth v;
     displayToImageRatio := displayToImageRatio v;
     _keyDownMap := _keyDownMap v |}.

Definition _labels_updateState (state : State) (itemIndex : Z) : M unit :=
  log (LabelsUpdateState state itemIndex) ;;;
  modify_this
    (fun v => set_labels (labels_updateState state itemIndex (_labels v)) v).

Definition _labels_redraw
    (lx cx : CanvasRenderingContext2D) (ratio : number) : M unit :=
  log (LabelsRedraw lx cx ratio) ;;;
  let! v := get_this in
  modify_raster (labels_redraw lx cx ratio (_labels v)).

Definition _labels_onMouseDown
    (mousePos : Vector2D) (labelIndex handleIndex : Z) : M bool :=
  log (LabelsOnMouseDown mousePos labelIndex handleIndex) ;;;
  let! v := get_this in
  let r := labels_onMouseDown mousePos labelIndex handleIndex (_labels v) in
  modify_this (set_labels (snd r)) ;;;
  ret (fst r).

Definition _labels_onMouseUp
    (mousePos : Vector2D) (labelIndex handleIndex : Z) : M unit :=
  log (LabelsOnMouseUp mousePos labelIndex handleIndex) ;;;
  modify_this
    (fun v =>
       set_labels
         (labels_onMouseUp mousePos labelIndex handleIndex (_labels v)) v).

Definition _labels_onMouseMove
    (mousePos imageSize : Vector2D) (labelIndex handleIndex : Z) : M bool :=
  log (LabelsOnMouseMove mousePos imageSize labelIndex handleIndex) ;;;
  let! v := get_this in
  let r :=
    labels_onMouseMove mousePos imageSize labelIndex handleIndex (_labels v) in
  modify_this (set_labels (snd r)) ;;;
  ret (fst r).

(** ** [Label2dViewer] *)

(** [constructor]: the initial values of the fields. *)
Definition constructor : Label2dViewer :=
  {| labelContext := None;
     controlContext := None;
     _labels := new_Label2DList;
     labelCanvas := None;
     controlCanvas := None;
     display := None;
     scale := 1;
     canvasHeight := 0;
     canvasWidth := 0;
     displayToImageRatio := 1;
     _keyDownMap := ∅ |}.

(** [componentDidMount]. *)
Definition componentDidMount : M unit :=
  modify_document (addEventListener "keydown" keyDownHandler) ;;;
  modify_document (addEventListener "keyup" keyUpHandler).

(** The class declares no [componentWillUnmount], and neither does
    [Viewer]; the base class [Component] is not among the sources and has
    no access to the bound handlers, which are private fields of the
    viewer.  Unmounting runs no code that touches them. *)
Definition componentWillUnmount : M unit := ret tt.

(** [setCursor(cursor)]. *)
Definition setCursor (cursor : string) : M unit :=
  let! v := get_this in
  match labelCanvas v with
  | Some canvas => log (SetStyleCursor canvas cursor)
  | None => ret tt
  end.

(** [setDefaultCursor()]. *)
Definition setDefaultCursor : M unit := setCursor "crosshair".

(** The destructuring assignment of the four display variables in
    [updateScale]. *)
Definition set_scale_fields
    (r : number * number * number * number) (v : Label2dViewer)
  : Label2dViewer :=
  let '(width, height, ratio, newScale) := r in
  {| labelContext := labelContext v;
     controlContext := controlContext v;
     _labels := _labels v;
     labelCanvas := labelCanvas v;
     controlCanvas := controlCanvas v;
     display := display v;
     scale := newScale;
     canvasHeight := height;
     canvasWidth := width;
     displayToImageRatio := ratio;
     _keyDownMap := _keyDownMap v |}.

(** [updateScale(canvas, context, upRes)]. *)
Definition updateScale
    (canvas : HTMLCanvasElement) (context : CanvasRenderingContext2D)
    (upRes : bool) : M unit :=
  let! v := get_this in
  match display v with
  | None => ret tt
  | Some d =>
    let! state := Session_getState in
    let config := getCurrentImageViewerConfig state in
    if number_ltb (viewScale config) MIN_SCALE
       || number_leb MAX_SCALE (viewScale config)
    then ret tt
    else
      let! r :=
        call_updateCanvasScale d canvas context config
          (viewScale config / scale v)%js upRes in
      modify_this (set_scale_fields r)
  end.

(** [this.controlCanvas = canvas] followed by
    [this.controlContext = canvas.getContext('2d')]. *)
Definition set_controlCanvas
    (canvas : HTMLCanvasElement) (v : Label2dViewer) : Label2dViewer :=
  {| labelContext := labelContext v;
     controlContext := getContext2d canvas;
     _labels := _labels v;
     labelCanvas := labelCanvas v;
     controlCanvas := Some canvas;
     display := display v;
     scale := scale v;
     canvasHeight := canvasHeight v;
     canvasWidth := canvasWidth v;
     displayToImageRatio := displayToImageRatio v;
     _keyDownMap := _keyDownMap v |}.

(** [this.labelCanvas = canvas] followed by
    [this.labelContext = canvas.getContext('2d')]. *)
Definition set_labelCanvas
    (canvas : HTMLCanvasElement) (v : Label2dViewer) : Label2dViewer :=
  {| labelContext := getContext2d canvas;
     controlContext := controlContext v;
     _labels := _labels v;
     labelCanvas := Some canvas;
     controlCanvas := controlCanvas v;
     display := display v;
     scale := scale v;
     canvasHeight := canvasHeight v;
     canvasWidth := canvasWidth v;
     displayToImageRatio := displayToImageRatio v;
     _keyDownMap := _keyDownMap v |}.

(** [render]: the [ref] callback of the control canvas.  React calls it
    with the element, or with [null] when the element goes away. *)
Definition controlCanvasRef (canvas : option HTMLCanvasElement) : M unit :=
  let! v := get_this in
  match canvas, display v with
  | Some canvas, Some d =>
    modify_this (set_controlCanvas canvas) ;;;
    let displayRect := div_rect d in
    match getContext2d canvas with
    | Some context =>
      if truthy_number (rect_width displayRect)
         && truthy_number (rect_height displayRect)
      then updateScale canvas context true
      else ret tt
    | None => ret tt
    end
  | _, _ => ret tt
  end.

(** [render]: the [ref] callback of the label canvas. *)
Definition labelCanvasRef (canvas : option HTMLCanvasElement) : M unit :=
  let! v := get_this in
  match canvas, display v with
  | Some canvas, Some d =>
    modify_this (set_labelCanvas canvas) ;;;
    let displayRect := div_rect d in
    match getContext2d canvas with
    | Some context =>
      if truthy_number (rect_width displayRect)
         && truthy_number (rect_height displayRect)
      then updateScale canvas context true
      else ret tt
    | None => ret tt
    end
  | _, _ => ret tt
  end.

(** [render]: the handler props of the two canvas elements.  Only the label
    canvas has any. *)
Definition render_handlers (k : CanvasKey) : list Listener :=
  match k with
  | ControlCanvasKey => []
  | LabelCanvasKey =>
    [("mousedown", mouseDownHandler);
     ("mouseup", mouseUpHandler);
     ("mousemove", mouseMoveHandler)]
  end.

(** [redraw()]. *)
Definition redraw : M bool :=
  let! v := get_this in
  match labelCanvas v, labelContext v, controlCanvas v, controlContext v with
  | Some lc, Some lx, Some cc, Some cx =>
    call_clearCanvas lc lx ;;;
    call_clearCanvas cc cx ;;;
    _labels_redraw lx cx (displayToImageRatio v * UP_RES_RATIO)%js
  | _, _, _, _ => ret tt
  end ;;;
  ret true.

Definition set_display
    (d : option HTMLDivElement) (v : Label2dViewer) : Label2dViewer :=
  {| labelContext := labelContext v;
     controlContext := controlContext v;
     _labels := _labels v;
     labelCanvas := labelCanvas v;
     controlCanvas := controlCanvas v;
     display := d;
     scale := scale v;
     canvasHeight := canvasHeight v;
     canvasWidth := canvasWidth v;
     displayToImageRatio := displayToImageRatio v;
     _keyDownMap := _keyDownMap v |}.

(** [updateState(state)]. *)
Definition updateState (state : State) : M unit :=
  let! d := props in
  modify_this (set_display d) ;;;
  _labels_updateState state (select_item (user_select state)).

(** [Viewer.componentDidUpdate()]. *)
Definition componentDidUpdate : M unit :=
  let! state := Session_getState in
  updateState state ;;;
  let! _ := redraw in
  ret tt.

(** [getMousePos(e)]. *)
Definition getMousePos (e : MouseEvent) : M Vector2D :=
  let! v := get_this in
  match display v, labelCanvas v with
  | Some d, Some canvas =>
    ret (normalizeMouseCoordinates d canvas
           (canvasWidth v) (canvasHeight v) (displayToImageRatio v)
           (clientX e) (clientY e))
  | _, _ => ret (mkVector2D 0 0)
  end.

(** [fetchHandleId(mousePos)]. *)
Definition fetchHandleId (mousePos : Vector2D) : M (Z * Z) :=
  let! v := get_this in
  match controlContext v with
  | Some context =>
    let '(x, y) := toCanvasCoords mousePos true (displayToImageRatio v) in
    let! data := call_getImageData context x y 4 4 in
    ret (imageDataToHandleId data)
  | None => ret (-1, 0)
  end.

(** [isKeyDown(key)]: the entry of the map, [undefined] when there is
    none. *)
Definition isKeyDown (k : string) : M (option bool) :=
  let! v := get_this in
  ret (_keyDownMap v !! k).

(** [onMouseDown(e)]. *)
Definition onMouseDown (e : MouseEvent) : M unit :=
  if negb (button e =? 0) then ret tt
  else
    let! control := isKeyDown "Control" in
    (if negb (truthy_flag control) then
       let! mousePos := getMousePos e in
       let! (labelIndex, handleIndex) := fetchHandleId mousePos in
       let! consumed := _labels_onMouseDown mousePos labelIndex handleIndex in
       if consumed then stopPropagation e else ret tt
     else ret tt) ;;;
    let! _ := redraw in
    ret tt.

(** [onMouseUp(e)]. *)
Definition onMouseUp (e : MouseEvent) : M unit :=
  if negb (button e =? 0) then ret tt
  else
    let! mousePos := getMousePos e in
    let! (labelIndex, handleIndex) := fetchHandleId mousePos in
    _labels_onMouseUp mousePos labelIndex handleIndex ;;;
    let! _ := redraw in
    ret tt.

(** [onMouseMove(e)]. *)
Definition onMouseMove (e : MouseEvent) : M unit :=
  let! control := isKeyDown "Control" in
  (if negb (truthy_flag control) then setDefaultCursor else ret tt) ;;;
  let! mousePos := getMousePos e in
  let! (labelIndex, handleIndex) := fetchHandleId mousePos in
  let! state := Session_getState in
  let! repaint :=
    _labels_onMouseMove mousePos (getCurrentImageSize state)
      labelIndex handleIndex in
  if repaint then
    stopPropagation e ;;;
    let! _ := redraw in
    ret tt
  else ret tt.

Definition set_keyDownMap
    (m : gmap string bool) (v : Label2dViewer) : Label2dViewer :=
  {| labelContext := labelContext v;
     controlContext := controlContext v;
     _labels := _labels v;
     labelCanvas := labelCanvas v;
     controlCanvas := controlCanvas v;
     display := display v;
     scale := scale v;
     canvasHeight := canvasHeight v;
     canvasWidth := canvasWidth v;
     displayToImageRatio := displayToImageRatio v;
     _keyDownMap := m |}.

(** [onKeyDown(e)]. *)
Definition onKeyDown (e : KeyboardEvent) : M unit :=
  modify_this (fun v => set_keyDownMap (<[key e := true]> (_keyDownMap v)) v).

(** [onKeyUp(e)]. *)
Definition onKeyUp (e : KeyboardEvent) : M unit :=
  modify_this (fun v => set_keyDownMap (delete (key e) (_keyDownMap v)) v) ;;;
  if String.eqb (key e) "Control" || String.eqb (key e) "Meta"
  then setDefaultCursor
  else ret tt.

(** ** Worlds that differ in one component *)

(** The world with more calls in its log. *)
Definition logged (fs : list Effect) (w : World) : World :=
  {| this := this w;
     props_display := props_display w;
     session := session w;
     raster := raster w;
     document_listeners := document_listeners w;
     trace := trace w ++ fs |}.

(** The world with another state of the label list. *)
Definition with_labels (l : Label2DList) (w : World) : World :=
  {| this := set_labels l (this w);
     props_display := props_display w;
     session := session w;
     raster := raster w;
     document_listeners := document_listeners w;
     trace := trace w |}.

(** The sampling call of [fetchHandleId]: one read of a 4x4 block when there
    is a control context, none otherwise. *)
Definition sampling (mousePos : Vector2D) (v : Label2dViewer) : list Effect :=
  match controlContext v with
  | Some context =>
    [CallGetImageData context
       (fst (toCanvasCoords mousePos true (displayToImageRatio v)))
       (snd (toCanvasCoords mousePos true (displayToImageRatio v))) 4 4]
  | None => []
  end.

(** The call of [setDefaultCursor]: one assignment of the cursor style when
    there is a label canvas. *)
Definition cursor_reset (v : Label2dViewer) : list Effect :=
  match labelCanvas v with
  | Some canvas => [SetStyleCursor canvas "crosshair"]
  | None => []
  end.

(** The calls of [redraw]: three when all four references are there, none
    otherwise. *)
Definition drawing (v : Label2dViewer) : list Effect :=
  match labelCanvas v, labelContext v, controlCanvas v, controlContext v with
  | Some lc, Some lx, Some cc, Some cx =>
    [CallClearCanvas lc lx; CallClearCanvas cc cx;
     LabelsRedraw lx cx (displayToImageRatio v * UP_RES_RATIO)%js]
  | _, _, _, _ => []
  end.

(** The world after a redraw that finds all four references. *)
Definition redrawn (w : World)
    (lc : HTMLCanvasElement) (lx : CanvasRenderingContext2D)
    (cc : HTMLCanvasElement) (cx : CanvasRenderingContext2D) : World :=
  {| this := this w;
     props_display := props_display w;
     session := session w;
     raster :=
       labels_redraw lx cx (displayToImageRatio (this w) * UP_RES_RATIO)%js
         (_labels (this w))
         (clearCanvas cc cx (clearCanvas lc lx (raster w)));
     document_listeners := document_listeners w;
     trace :=
       trace w ++
       [CallClearCanvas lc lx; CallClearCanvas cc cx;
        LabelsRedraw lx cx (displayToImageRatio (this w) * UP_RES_RATIO)%js] |}.

(** The world after one more action has been handed to the store. *)
Definition dispatching (a : Action) (w : World) : World :=
  {| this := this w;
     props_display := props_display w;
     session := Session_dispatch a (session w);
     raster := raster w;
     document_listeners := document_listeners w;
     trace := trace w |}.

(** ** [ToolBar] *)

Definition Session_dispatchM (a : Action) : M unit :=
  modify_session (Session_dispatch a).

(** [onDeleteLabel()], the callback of the Delete button. *)
Definition onDeleteLabel : M unit :=
  let! state := Session_getState in
  let select := user_select state in
  if 0 <=? select_label select
  then Session_dispatchM (deleteLabel (select_item select) (select_label select))
  else ret tt.

(** [ToolBar.keyDownHandler(e)]. *)
Definition ToolBar_keyDownHandler (e : KeyboardEvent) : M unit :=
  if String.eqb (key e) "Backspace" then
    let! state := Session_getState in
    let select := user_select state in
    if 0 <=? select_label select
    then
      Session_dispatchM (deleteLabel (select_item select) (select_label select))
    else ret tt
  else ret tt.

(** [ToolBar.componentDidMount()]. *)
Definition ToolBar_componentDidMount : M unit :=
  modify_document (addEventListener "keydown" toolBarKeyDownHandler).

(** [ToolBar.componentWillUnmount()]. *)
Definition ToolBar_componentWillUnmount : M unit :=
  modify_document (removeEventListener "keydown" toolBarKeyDownHandler).

(** ** Delivery of browser events *)

(** Where the pointer is when a mouse event fires: over one of the two
    canvases, or over any other part of the page. *)
Inductive EventTarget :=
| OverCanvas (k : CanvasKey)
| OutsideCanvas.

Inductive DomEvent :=
| MouseDom (type : string) (target : EventTarget) (e : MouseEvent)
| KeyDom (type : string) (e : KeyboardEvent).

Definition event_type (ev : DomEvent) : string :=
  match ev with MouseDom t _ _ => t | KeyDom t _ => t end.

(** Calling a bound method with an event. *)
Definition invoke (h : Handler) (ev : DomEvent) : M unit :=
  match h, ev with
  | mouseDownHandler, MouseDom _ _ e => onMouseDown e
  | mouseUpHandler, MouseDom _ _ e => onMouseUp e
  | mouseMoveHandler, MouseDom _ _ e => onMouseMove e
  | keyDownHandler, KeyDom _ e => onKeyDown e
  | keyUpHandler, KeyDom _ e => onKeyUp e
  | toolBarKeyDownHandler, KeyDom _ e => ToolBar_keyDownHandler e
  | _, _ => ret tt
  end.

Fixpoint invoke_all (hs : list Handler) (ev : DomEvent) : M unit :=
  match hs with
  | [] => ret tt
  | h :: hs' => invoke h ev ;;; invoke_all hs' ev
  end.

(** The handler props of the element the event fires on. *)
Definition element_handlers (ev : DomEvent) : list Handler :=
  match ev with
  | MouseDom t (OverCanvas k) _ => listenersFor t (render_handlers k)
  | _ => []
  end.

(** The callbacks an event reaches: the handlers of the element under the
    pointer, then the listeners of the document for that event type. *)
Definition observers (ev : DomEvent) (w : World) : list Handler :=
  element_handlers ev ++ listenersFor (event_type ev) (document_listeners w).

Definition dispatchEvent (ev : DomEvent) : M unit :=
  fun w => invoke_all (observers ev w) ev w.

Fixpoint dispatchAll (evs : list DomEvent) : M unit :=
  match evs with
  | [] => ret tt
  | ev :: evs' => dispatchEvent ev ;;; dispatchAll evs'
  end.

(** ** Requests for a view scale *)

(** The store holds a new state. *)
Definition store_state (s : State) (st : SessionStore) : SessionStore :=
  {| session_state := s; dispatched := dispatched st |}.

(** One request: the store has come to hold [req_state], whose viewer
    configuration carries the requested [viewScale], and [updateScale] runs
    for one canvas. *)
Record ScaleRequest := mkScaleRequest
  { req_state : State;
    req_canvas : HTMLCanvasElement;
    req_context : CanvasRenderingContext2D;
    req_upRes : bool }.

Definition req_viewScale (r : ScaleRequest) : number :=
  viewScale (getCurrentImageViewerConfig (req_state r)).

Definition request (r : ScaleRequest) : M unit :=
  modify_session (store_state (req_state r)) ;;;
  updateScale (req_canvas r) (req_context r) (req_upRes r).


(** ** The rest of [ToolBar] *)

(** [Attribute] of [functional/types]: the members the tool bar reads. *)
Record Attribute := mkAttribute
  { toolType : string; attr_name : string; attr_values : list string }.

(** The loop of [getAttributeIndex]: [i] is the loop variable and
    [attributeIndex] the index found so far. *)
Fixpoint getAttributeIndex_from
    (i attributeIndex : Z) (rest : list Attribute) (toggleName : string) : Z :=
  match rest with
  | [] => attributeIndex
  | a :: rest' =>
    getAttributeIndex_from (i + 1)
      (if String.eqb (attr_name a) toggleName then i else attributeIndex)
      rest' toggleName
  end.

(** [ToolBar.getAttributeIndex(allAttributes, toggleName)]. *)
Definition getAttributeIndex
    (allAttributes : list Attribute) (toggleName : string) : Z :=
  getAttributeIndex_from 0 (-1) allAttributes toggleName.

(** [Array.prototype.indexOf] on strings, searching from index [i]. *)
Fixpoint indexOf_from (i : Z) (l : list string) (x : string) : Z :=
  match l with
  | [] => -1
  | y :: l' => if String.eqb y x then i else indexOf_from (i + 1) l' x
  end.

Definition indexOf (l : list string) (x : string) : Z := indexOf_from 0 l x.

(** [allAttributes[attributeIndex]]: [undefined] outside of the array. *)
Definition array_get {A} (l : list A) (i : Z) : option A :=
  if i <? 0 then None else nth_error l (Z.to_nat i).

(** [ToolBar.handleAttributeToggle(toggleName, alignment)].  The store of
    the model carries no task configuration: [allAttributes] stands for
    [Session.getState().task.config.attributes].  The answer [None] is the
    [TypeError] of reading [values] of [undefined]. *)
Definition handleAttributeToggle
    (allAttributes : list Attribute) (toggleName alignment : string)
  : M (option unit) :=
  let attributeIndex := getAttributeIndex allAttributes toggleName in
  if attributeIndex =? -1 then ret (Some tt)
  else
    match array_get allAttributes attributeIndex with
    | None => ret None
    | Some currentAttribute =>
      let selectedIndex := indexOf (attr_values currentAttribute) alignment in
      Session_dispatchM (addLabelTag attributeIndex selectedIndex) ;;;
      ret (Some tt)
    end.

(** ** The life of a viewer *)

Definition modify_props (d : option HTMLDivElement) : M unit :=
  fun w =>
    (tt, {| this := this w;
            props_display := d;
            session := session w;
            raster := raster w;
            document_listeners := document_listeners w;
            trace := trace w |}).

(** What can happen to a constructed viewer: React mounts and updates it,
    fires the [ref] callbacks of [render] with an element or with [null],
    and hands it new props; the store comes to hold a new state; the
    browser delivers an event; a caller uses the public methods. *)
Inductive Op :=
| DidMount
| DidUpdate
| ControlRef (canvas : option HTMLCanvasElement)
| LabelRef (canvas : option HTMLCanvasElement)
| NewProps (d : option HTMLDivElement)
| NewState (s : State)
| Deliver (ev : DomEvent)
| Redraw
| SetCursor (cursor : string).

Definition perform (o : Op) : M unit :=
  match o with
  | DidMount => componentDidMount
  | DidUpdate => componentDidUpdate
  | ControlRef canvas => controlCanvasRef canvas
  | LabelRef canvas => labelCanvasRef canvas
  | NewProps d => modify_props d
  | NewState s => modify_session (store_state s)
  | Deliver ev => dispatchEvent ev
  | Redraw => let! _ := redraw in ret tt
  | SetCursor cursor => setCursor cursor
  end.

Fixpoint performAll (os : list Op) : M unit :=
  match os with
  | [] => ret tt
  | o :: os' => perform o ;;; performAll os'
  end.

(** The display variables and the references of a viewer: everything but
    the label list and the key map. *)
Definition display_state (v : Label2dViewer) :=
  (labelContext v, controlContext v, labelCanvas v, controlCanvas v,
   display v, (canvasWidth v, canvasHeight v, displayToImageRatio v, scale v)).

(** Every key that the map holds is held as [true]. *)
Definition keys_are_true (m : gmap string bool) : Prop :=
  forall k b, m !! k = Some b -> b = true.

Definition is_StopPropagation (f : Effect) : bool :=
  match f with StopPropagation _ => true | _ => false end.

(** ** Relations between the states of a viewer *)

(** [v'] is [v] up to the label list and the key map, and the key map has
    kept to [true] values if it did before. *)
Definition touched (v v' : Label2dViewer) : Prop :=
  exists l m,
    v' = set_keyDownMap m (set_labels l v)
    /\ (keys_are_true (_keyDownMap v) -> keys_are_true m).

(** The guard of [updateScale] lets [v] through: neither of its two
    comparisons holds. *)
Definition guard_passes (v : number) : bool :=
  negb (number_ltb v MIN_SCALE || number_leb MAX_SCALE v).

(** For a scale that the guard of [updateScale] lets through, the scale
    that [updateCanvasScale] reports is the one requested. *)
Definition reports_requested_scale : Prop :=
  forall d c x cfg z u px,
    guard_passes (viewScale cfg) = true ->
    snd (fst (updateCanvasScale d c x cfg z u px)) = viewScale cfg.

(** [s] is a scale that [updateCanvasScale] has returned for a
    configuration whose [viewScale] the guard of [updateScale] lets
    through. *)
Definition accepted_scale (s : number) : Prop :=
  exists d c x cfg z u px,
    guard_passes (viewScale cfg) = true
    /\ s = snd (fst (updateCanvasScale d c x cfg z u px)).

(** From [v] to [v']: a canvas that was there is still there, a key map of
    [true] values is still one, and the scale is the old one or an accepted
    one. *)
Definition kept (v v' : Label2dViewer) : Prop :=
  (is_Some (labelCanvas v) -> is_Some (labelCanvas v'))
  /\ (is_Some (controlCanvas v) -> is_Some (controlCanvas v'))
  /\ (keys_are_true (_keyDownMap v) -> keys_are_true (_keyDownMap v'))
  /\ (scale v' = scale v \/ accepted_scale (scale v')).

(** The page on which only the viewer listens, with one more set of keys
    held. *)
Definition listening
    (keys : gmap string bool) (fs : list Effect) (w : World) : World :=
  {| this := set_keyDownMap keys (this w);
     props_display := props_display w;
     session := session w;
     raster := raster w;
     document_listeners :=
       [("keydown", keyDownHandler); ("keyup", keyUpHandler)];
     trace := trace w ++ fs |}.

End Viewer.

Arguments Label2dViewer {_ _}.
Arguments World {_ _}.

Notation "'let!' x ':=' m 'in' k" := (bind m (fun x => k))
  (at level 10, x pattern, m at level 200, k at level 200).
Notation "m ;;; k" := (bind m (fun _ => k))
  (at level 100, k at level 200, right associativity).

(** ** A page to run the viewer on

    The examples below need one implementation of the two interfaces.  What
    the specification of the editor says about the members is followed;
    what it leaves open (the values of the constants, the colours, the
    layout of the page) is chosen here and no theorem depends on it. *)

Module Sample.

(** A box with two opposite corners, in image coordinates. *)
Record Box := mkBox { corner1 : Vector2D; corner2 : Vector2D }.

(** One painted handle of the control canvas: where it is, in control
    canvas coordinates, and the pair it encodes. *)
Record Painted := mkPainted
  { at_x : number; at_y : number; shapeIndex : Z; handleIndex : Z }.

Record Canvases := mkCanvases
  { label_pixels : list Box; control_pixels : list Painted }.

Definition clear (k : CanvasKey) (r : Canvases) : Canvases :=
  match k with
  | LabelCanvasKey =>
    {| label_pixels := []; control_pixels := control_pixels r |}
  | ControlCanvasKey =>
    {| label_pixels := label_pixels r; control_pixels := [] |}
  end.

(** The colour of a handle: shape index plus one in red and green, handle
    index in blue, opaque. *)
Definition encode (p : Painted) : ImageData :=
  [(shapeIndex p + 1) / 256; (shapeIndex p + 1) mod 256; handleIndex p; 255].

(** A handle covers the 4x4 block whose corner is within two pixels; a
    block or a handle at no finite place covers nothing. *)
Definition covers (x y : number) (p : Painted) : bool :=
  match x, y, at_x p, at_y p with
  | Num x, Num y, Num px, Num py =>
    Qle_bool (px - 2) x && Qle_bool x (px + 2)
    && Qle_bool (py - 2) y && Qle_bool y (py + 2)
  | _, _, _, _ => false
  end.

Definition sample_block (x y : number) (ps : list Painted) : ImageData :=
  match List.filter (covers x y) ps with
  | p :: _ => encode p
  | [] => [0; 0; 0; 0]
  end.

(** Modelled from the spec: [imageDataToHandleId] decodes the colour back
    into [(shapeIndex, handleIndex)]; a block that is no handle colour
    decodes to the reserved pair [(-1, 0)]. *)
Definition decode (data : ImageData) : Z * Z :=
  match data with
  | r :: g :: b :: 255 :: _ => (r * 256 + g - 1, b)
  | _ => (-1, 0)
  end.

(** [a - b] where both are finite. *)
Definition minus (a b : number) : number :=
  match a, b with
  | Num x, Num y => Num (x - y)
  | _, _ => NaN
  end.

(** Modelled from the spec: [normalizeMouseCoordinates] subtracts the
    on-screen origin of the canvas and divides by [displayToImageRatio];
    it does not clamp. *)
Definition normalize
    (d : HTMLDivElement) (canvas : HTMLCanvasElement)
    (cw ch ratio cx cy : number) : Vector2D :=
  mkVector2D (minus cx (rect_left (canvas_rect canvas)) / ratio)%js
             (minus cy (rect_top (canvas_rect canvas)) / ratio)%js.

(** Modelled from the spec: [toCanvasCoords] maps back to canvas pixels and
    scales by the up-resolution factor when [upRes] is set. *)
Definition canvasCoords
    (up : Q) (p : Vector2D) (upRes : bool) (ratio : number)
  : number * number :=
  let f := if upRes then (ratio * up)%js else ratio in
  ((vx p * f)%js, (vy p * f)%js).

Definition min_scale : Q := 1.
Definition max_scale : Q := 3.
Definition up_res_ratio : Q := 2.

(** Modelled from the spec: [updateCanvasScale] recomputes the canvas
    dimensions and the ratio for the target scale of the configuration and
    returns [(width, height, displayToImageRatio, newScale)]; a target
    outside [MIN_SCALE, MAX_SCALE] is rejected, and what it returns is then
    computed for the scale before the zoom. *)
Definition canvasScale
    (d : HTMLDivElement) (canvas : HTMLCanvasElement)
    (context : CanvasRenderingContext2D) (config : ImageViewerConfigType)
    (zoomRatio : number) (upRes : bool) (r : Canvases)
  : (number * number * number * number) * Canvases :=
  let target := viewScale config in
  let newScale :=
    if number_ltb target min_scale || number_ltb max_scale target
    then (target / zoomRatio)%js
    else target in
  ((rect_width (div_rect d) * newScale,
    rect_height (div_rect d) * newScale,
    newScale,
    newScale)%js, r).

(** Modelled from the spec: the members of [view/image] as the
    specification describes them.  It gives no values for [MIN_SCALE],
    [MAX_SCALE] and [UP_RES_RATIO]; 1, 3 and 2 are taken. *)
#[export] Instance image_view : ImageView :=
  {| Raster := Canvases;
     MIN_SCALE := min_scale;
     MAX_SCALE := max_scale;
     UP_RES_RATIO := up_res_ratio;
     clearCanvas := fun _ context => clear (ctx_canvas context);
     getImageData := fun context x y _ _ r =>
       match ctx_canvas context with
       | ControlCanvasKey => sample_block x y (control_pixels r)
       | LabelCanvasKey => [0; 0; 0; 0]
       end;
     imageDataToHandleId := decode;
     normalizeMouseCoordinates := normalize;
     toCanvasCoords := canvasCoords up_res_ratio;
     updateCanvasScale := canvasScale;
     getCurrentImageSize := image_size |}.

(** The interaction state of the list; at most one interaction is in
    progress. *)
Inductive Interaction :=
| Idle
| Creating (anchor current : Vector2D)
| Editing (shape handle : Z) (current : Vector2D).

(** The mutations a list hands to the store. *)
Inductive Intent :=
| CreateShape (b : Box)
| UpdateShape (shape handle : Z) (p : Vector2D).

Record Labels := mkLabels
  { shapes : list Box; interaction : Interaction; intents : list Intent }.

(** Modelled from the spec: [onMouseDown] starts an interaction, the
    creation of a new shape when [shapeIndex] is [-1] and an edit of the
    addressed handle otherwise, and reports the event as consumed. *)
Definition mouseDown (p : Vector2D) (si hi : Z) (l : Labels) : bool * Labels :=
  match interaction l with
  | Idle =>
    (true,
     {| shapes := shapes l;
        interaction := if si =? -1 then Creating p p else Editing si hi p;
        intents := intents l |})
  | _ => (false, l)
  end.

(** Modelled from the spec: [onMouseMove] updates the geometry of the
    interaction in progress and reports whether a repaint is required. *)
Definition mouseMove (p size : Vector2D) (si hi : Z) (l : Labels)
  : bool * Labels :=
  match interaction l with
  | Idle => (false, l)
  | Creating a _ =>
    (true,
     {| shapes := shapes l; interaction := Creating a p;
        intents := intents l |})
  | Editing s h _ =>
    (true,
     {| shapes := shapes l; interaction := Editing s h p;
        intents := intents l |})
  end.

(** Modelled from the spec: [onMouseUp] finalizes the interaction, commits
    the geometry, returns to idle and dispatches the mutation. *)
Definition mouseUp (p : Vector2D) (si hi : Z) (l : Labels) : Labels :=
  match interaction l with
  | Idle => l
  | Creating a _ =>
    {| shapes := shapes l ++ [mkBox a p]; interaction := Idle;
       intents := intents l ++ [CreateShape (mkBox a p)] |}
  | Editing s h _ =>
    {| shapes := shapes l; interaction := Idle;
       intents := intents l ++ [UpdateShape s h p] |}
  end.

Fixpoint handles (i : Z) (ratio : number) (bs : list Box) : list Painted :=
  match bs with
  | [] => []
  | b :: bs' =>
    mkPainted (vx (corner1 b) * ratio)%js (vy (corner1 b) * ratio)%js i 0
    :: mkPainted (vx (corner2 b) * ratio)%js (vy (corner2 b) * ratio)%js i 1
    :: handles (i + 1) ratio bs'
  end.

(** Modelled from the spec: [redraw] clears nothing; it paints every shape
    on the label canvas and the handles of every shape, in the colour of
    their indices, on the control canvas. *)
Definition paint
    (lx cx : CanvasRenderingContext2D) (ratio : number) (l : Labels)
    (r : Canvases)
  : Canvases :=
  {| label_pixels := label_pixels r ++ shapes l;
     control_pixels := control_pixels r ++ handles 0 ratio (shapes l) |}.

(** Modelled from the spec: the label list, a new one being empty and
    idle.  The store of the model keeps no label data, so [updateState]
    leaves the shapes as they are. *)
#[export] Instance label_list : Label2DListOps :=
  {| Label2DList := Labels;
     new_Label2DList := mkLabels [] Idle [];
     labels_updateState := fun _ _ l => l;
     labels_redraw := paint;
     labels_onMouseDown := mouseDown;
     labels_onMouseUp := mouseUp;
     labels_onMouseMove := mouseMove |}.

Definition state0 : State :=
  {| user_select := mkSelect 0 (-1);
     image_viewer_config := mkConfig 1;
     image_size := mkVector2D 640 480 |}.

Definition display0 : HTMLDivElement := mkDiv (mkDOMRect 0 0 640 480).

(** The page before the viewer is constructed into it: nothing listens. *)
Definition page (d : option HTMLDivElement) (s : State) : World :=
  {| this := constructor;
     props_display := d;
     session := mkSession s [];
     raster := mkCanvases [] [];
     document_listeners := [];
     trace := [] |}.

Definition canvas_of (k : CanvasKey) : HTMLCanvasElement :=
  mkCanvas k (mkDOMRect 0 0 640 480) (Some (mkCtx k)).

(** What React does with the two [ref] callbacks at the end of a render. *)
Definition attach_refs : M unit :=
  controlCanvasRef (Some (canvas_of ControlCanvasKey)) ;;;
  labelCanvasRef (Some (canvas_of LabelCanvasKey)).

(** The first render happens before the component has seen its display:
    the refs fire with [display] still null.  The first update reads the
    props in [componentDidUpdate], after its refs have fired; the refs of
    the second update find the display and set the canvases. *)
Definition mounted : World :=
  exec (attach_refs ;;; componentDidMount ;;;
        attach_refs ;;; componentDidUpdate ;;;
        attach_refs ;;; componentDidUpdate)
       (page (Some display0) state0).

(** The page after the first render only. *)
Definition first_render : World :=
  exec (attach_refs ;;; componentDidMount) (page (Some display0) state0).

End Sample.

(** Worlds and events of the examples. *)

Module Scenario.
Import Sample.

Definition over_label (type : string) (e : MouseEvent) : DomEvent :=
  MouseDom type (OverCanvas LabelCanvasKey) e.

(** A drag that starts on the label canvas at (10, 10) and moves to
    (50, 60). *)
Definition press : DomEvent := over_label "mousedown" (mkMouseEvent 0 10 10).
Definition drag : DomEvent := over_label "mousemove" (mkMouseEvent 0 50 60).

(** The release of that drag over the canvas, and outside of it. *)
Definition release_inside : DomEvent :=
  over_label "mouseup" (mkMouseEvent 0 50 60).
Definition release_outside : DomEvent :=
  MouseDom "mouseup" OutsideCanvas (mkMouseEvent 0 700 60).

Definition dragging : World :=
  exec (dispatchEvent press ;;; dispatchEvent drag) mounted.

Definition control_held : World :=
  exec (dispatchEvent (KeyDom "keydown" (mkKeyboardEvent "Control"))) mounted.

(** A request for the scale [v] on the label canvas. *)
Definition ask (v : Q) : ScaleRequest :=
  {| req_state :=
       {| user_select := mkSelect 0 (-1);
          image_viewer_config := mkConfig v;
          image_size := mkVector2D 640 480 |};
     req_canvas := canvas_of LabelCanvasKey;
     req_context := mkCtx LabelCanvasKey;
     req_upRes := true |}.


(** The store with label 3 of item 0 selected, and with none selected. *)
Definition selected : World :=
  page (Some display0)
    {| user_select := mkSelect 0 3;
       image_viewer_config := mkConfig 1;
       image_size := mkVector2D 640 480 |}.

Definition unselected : World := page (Some display0) state0.

(** A display that has not been laid out yet: no width. *)
Definition flat_display : HTMLDivElement := mkDiv (mkDOMRect 0 0 0 480).

(** The viewer after its first update inside that display. *)
Definition flat : World :=
  exec (attach_refs ;;; componentDidMount ;;;
        attach_refs ;;; componentDidUpdate)
       (page (Some flat_display) state0).

(** A control canvas for which the browser gives no 2d context. *)
Definition blind_canvas : HTMLCanvasElement :=
  mkCanvas ControlCanvasKey (mkDOMRect 0 0 640 480) None.

(** The attributes of a task; two of them are called "Occluded". *)
Definition attributes0 : list Attribute :=
  [mkAttribute "switch" "Occluded" [];
   mkAttribute "list" "Weather" ["sunny"; "rainy"; "snowy"];
   mkAttribute "switch" "Occluded" [];
   mkAttribute "list" "Scene" ["city"; "highway"]].

(** What happens to a viewer between two frames, for the examples. *)
Definition busy : list Op :=
  [LabelRef None; ControlRef None;
   NewState
     {| user_select := mkSelect 0 (-1);
        image_viewer_config := mkConfig 2;
        image_size := mkVector2D 640 480 |};
   LabelRef (Some (canvas_of LabelCanvasKey));
   Deliver (KeyDom "keydown" (mkKeyboardEvent "Shift"));
   Deliver press; Deliver drag; DidUpdate;
   NewState
     {| user_select := mkSelect 0 (-1);
        image_viewer_config := mkConfig 7;
        image_size := mkVector2D 640 480 |};
   ControlRef (Some (canvas_of ControlCanvasKey));
   Deliver release_inside; Redraw; SetCursor "move"].

End Scenario.

(** * Properties *)

Section Facts.

Context `{LL : Label2DListOps}.

Implicit Types (w : World) (e : MouseEvent).

Lemma skipn_length_app {A} (l new : list A) :
  skipn (length l) (l ++ new) = new.
Proof. induction l as [|a l IH]; simpl; auto. Qed.

Lemma emitted_app {A} (m : M A) w new :
  trace (exec m w) = trace w ++ new -> emitted m w = new.
Proof. unfold emitted. intros ->. apply skipn_length_app. Qed.

Lemma world_eta w :
  {| this := this w; props_display := props_display w; session := session w;
     raster := raster w; document_listeners := document_listeners w;
     trace := trace w |} = w.
Proof. destruct w; reflexivity. Qed.

Lemma viewer_eta (v : Label2dViewer) :
  {| labelContext := labelContext v; controlContext := controlContext v;
     _labels := _labels v; labelCanvas := labelCanvas v;
     controlCanvas := controlCanvas v; display := display v;
     scale := scale v; canvasHeight := canvasHeight v;
     canvasWidth := canvasWidth v;
     displayToImageRatio := displayToImageRatio v;
     _keyDownMap := _keyDownMap v |} = v.
Proof. destruct v; reflexivity. Qed.

(** Unfolding of the monad and of the calls that leave the component. *)
Ltac step :=
  unfold exec, eval, emitted, bind, ret, get_this, log, props,
    modify_this, modify_raster, modify_document, modify_session,
    Session_getState, call_clearCanvas, call_getImageData,
    call_updateCanvasScale, stopPropagation, _labels_updateState,
    _labels_redraw, _labels_onMouseDown, _labels_onMouseUp,
    _labels_onMouseMove in *;
  cbn [fst snd this props_display session raster document_listeners trace
       labelContext controlContext _labels labelCanvas controlCanvas
       display scale canvasHeight canvasWidth displayToImageRatio
       _keyDownMap set_labels] in *.

(** ** The redraw *)

Lemma redraw_run w :
  redraw w =
  (true,
   match labelCanvas (this w), labelContext (this w),
         controlCanvas (this w), controlContext (this w) with
   | Some lc, Some lx, Some cc, Some cx => redrawn w lc lx cc cx
   | _, _, _, _ => w
   end).
Proof.
  unfold redraw, redrawn. step.
  destruct (labelCanvas (this w)), (labelContext (this w)),
    (controlCanvas (this w)), (controlContext (this w));
    cbn; rewrite ?world_eta; try reflexivity.
  rewrite <- !app_assoc. reflexivity.
Qed.

Lemma redraw_trace w :
  trace (exec redraw w) = trace w ++ drawing (this w).
Proof.
  unfold exec. rewrite redraw_run. unfold drawing, redrawn. cbn [snd].
  destruct (labelCanvas (this w)), (labelContext (this w)),
    (controlCanvas (this w)), (controlContext (this w));
    cbn; rewrite ?app_nil_r; reflexivity.
Qed.

Lemma redraw_this w : this (exec redraw w) = this w.
Proof.
  unfold exec. rewrite redraw_run. unfold redrawn. cbn [snd].
  destruct (labelCanvas (this w)), (labelContext (this w)),
    (controlCanvas (this w)), (controlContext (this w)); reflexivity.
Qed.

Lemma drawing_no_forward (v : Label2dViewer) :
  List.filter is_forward (drawing v) = [].
Proof.
  unfold drawing.
  destruct (labelCanvas v), (labelContext v), (controlCanvas v),
    (controlContext v); reflexivity.
Qed.

Lemma sampling_no_forward p (v : Label2dViewer) :
  List.filter is_forward (sampling p v) = [].
Proof. unfold sampling. destruct (controlContext v); reflexivity. Qed.

(** ** Pointer position and handle *)

Lemma getMousePos_run e w : getMousePos e w = (eval (getMousePos e) w, w).
Proof.
  unfold getMousePos. step.
  destruct (display (this w)), (labelCanvas (this w)); reflexivity.
Qed.

Lemma fetchHandleId_run p w :
  fetchHandleId p w =
  (eval (fetchHandleId p) w, logged (sampling p (this w)) w).
Proof.
  unfold fetchHandleId, sampling, logged. step.
  destruct (controlContext (this w)) as [cx|]; cbn.
  - destruct (toCanvasCoords p true (displayToImageRatio (this w))); reflexivity.
  - rewrite app_nil_r, world_eta. reflexivity.
Qed.

(** ** The pointer handlers, run *)

Lemma redraw_exec w : redraw w = (true, exec redraw w).
Proof. unfold exec. rewrite redraw_run. reflexivity. Qed.

Lemma onMouseUp_run e w :
  button e = 0 ->
  let p := eval (getMousePos e) w in
  let ids := eval (fetchHandleId p) w in
  onMouseUp e w =
  (tt,
   exec redraw
     (with_labels (labels_onMouseUp p (fst ids) (snd ids) (_labels (this w)))
        (logged (sampling p (this w) ++ [LabelsOnMouseUp p (fst ids) (snd ids)])
           w))).
Proof.
  intros Hb p ids. unfold onMouseUp. rewrite Hb. cbn [Z.eqb negb].
  unfold bind at 1. rewrite getMousePos_run. fold p.
  unfold bind at 1. rewrite fetchHandleId_run. fold ids.
  destruct ids as [l h]. cbn [fst snd].
  unfold bind at 1. unfold _labels_onMouseUp, with_labels, logged. step.
  rewrite <- app_assoc.
  match goal with |- (let (_, _) := redraw ?x in _) = _ =>
    rewrite (redraw_exec x) end.
  step. rewrite <- ?app_assoc. reflexivity.
Qed.

Lemma logged_logged a b w : logged a (logged b w) = logged (b ++ a) w.
Proof. unfold logged; cbn. rewrite app_assoc. reflexivity. Qed.

Lemma logged_nil w : logged [] w = w.
Proof. unfold logged. rewrite app_nil_r. apply world_eta. Qed.

Lemma setDefaultCursor_run w :
  setDefaultCursor w = (tt, logged (cursor_reset (this w)) w).
Proof.
  unfold setDefaultCursor, setCursor, cursor_reset. step.
  destruct (labelCanvas (this w)); cbn; [reflexivity|].
  rewrite logged_nil. reflexivity.
Qed.

Lemma eval_getMousePos_logged e fs w :
  eval (getMousePos e) (logged fs w) = eval (getMousePos e) w.
Proof.
  unfold getMousePos, logged. step.
  destruct (display (this w)), (labelCanvas (this w)); reflexivity.
Qed.

Lemma eval_fetchHandleId_logged p fs w :
  eval (fetchHandleId p) (logged fs w) = eval (fetchHandleId p) w.
Proof.
  unfold fetchHandleId, logged. step.
  destruct (controlContext (this w)); cbn; [|reflexivity].
  destruct (toCanvasCoords p true (displayToImageRatio (this w))); reflexivity.
Qed.

Lemma onMouseDown_run e w :
  button e = 0 ->
  let p := eval (getMousePos e) w in
  let ids := eval (fetchHandleId p) w in
  let r := labels_onMouseDown p (fst ids) (snd ids) (_labels (this w)) in
  onMouseDown e w =
  (tt,
   exec redraw
     (if truthy_flag (_keyDownMap (this w) !! "Control") then w
      else
        logged (if fst r then [StopPropagation e] else [])
          (with_labels (snd r)
             (logged
                (sampling p (this w)
                 ++ [LabelsOnMouseDown p (fst ids) (snd ids)]) w)))).
Proof.
  intros Hb p ids r. unfold onMouseDown. rewrite Hb. cbn [Z.eqb negb].
  unfold isKeyDown. unfold bind at 1. unfold bind at 1. unfold get_this, ret.
  destruct (truthy_flag (_keyDownMap (this w) !! "Control")); cbn [negb].
  - unfold bind, ret. rewrite redraw_exec. reflexivity.
  - unfold bind at 1. unfold bind at 1. rewrite getMousePos_run. fold p.
    unfold bind at 1. rewrite fetchHandleId_run. fold ids.
    destruct ids as [l h]. cbn [fst snd] in *.
    unfold bind at 1.
    unfold _labels_onMouseDown, with_labels, stopPropagation, logged.
    step. fold r.
    destruct (fst r); cbv beta iota;
      match goal with |- (let (_, _) := redraw ?x in _) = _ =>
        rewrite (redraw_exec x) end;
      step; rewrite <- ?app_assoc, ?app_nil_r; reflexivity.
Qed.

Lemma onMouseMove_run e w :
  let pre :=
    if truthy_flag (_keyDownMap (this w) !! "Control") then []
    else cursor_reset (this w) in
  let p := eval (getMousePos e) w in
  let ids := eval (fetchHandleId p) w in
  let size := getCurrentImageSize (session_state (session w)) in
  let r := labels_onMouseMove p size (fst ids) (snd ids) (_labels (this w)) in
  let w1 :=
    with_labels (snd r)
      (logged
         (pre ++ sampling p (this w)
          ++ [LabelsOnMouseMove p size (fst ids) (snd ids)]) w) in
  onMouseMove e w =
  (tt, if fst r then exec redraw (logged [StopPropagation e] w1) else w1).
Proof.
  intros pre p ids size r w1. unfold onMouseMove.
  unfold isKeyDown. unfold bind at 1. unfold bind at 1. unfold get_this, ret.
  assert (Hpre :
    (if negb (truthy_flag (_keyDownMap (this w) !! "Control"))
     then setDefaultCursor else (fun w0 => (tt, w0))) w = (tt, logged pre w)).
  { subst pre. destruct (truthy_flag (_keyDownMap (this w) !! "Control"));
      cbn [negb].
    - rewrite logged_nil. reflexivity.
    - apply setDefaultCursor_run. }
  unfold bind at 1. rewrite Hpre.
  unfold bind at 1. rewrite getMousePos_run, eval_getMousePos_logged. fold p.
  unfold bind at 1. rewrite fetchHandleId_run, eval_fetchHandleId_logged.
  fold ids. rewrite logged_logged.
  destruct ids as [l h]. cbn [fst snd] in *.
  unfold bind at 1. unfold Session_getState.
  unfold bind at 1.
  unfold _labels_onMouseMove, stopPropagation.
  subst w1. unfold with_labels, logged. step. fold size. fold r.
  destruct (fst r); cbv beta iota;
    rewrite <- ?app_assoc; [|reflexivity].
  match goal with |- (let (_, _) := redraw ?x in _) = _ =>
    rewrite (redraw_exec x) end.
  step. rewrite <- ?app_assoc. reflexivity.
Qed.

(** ** What each pointer handler adds to the log *)

Lemma emitted_onMouseUp e w :
  button e = 0 ->
  let p := eval (getMousePos e) w in
  let ids := eval (fetchHandleId p) w in
  emitted (onMouseUp e) w =
  sampling p (this w) ++ [LabelsOnMouseUp p (fst ids) (snd ids)]
  ++ drawing (this w).
Proof.
  intros Hb p ids. apply emitted_app.
  unfold exec at 1. rewrite (onMouseUp_run e w Hb). cbn [snd].
  rewrite redraw_trace. fold p ids.
  unfold with_labels, logged; cbn. rewrite <- !app_assoc. reflexivity.
Qed.

Lemma emitted_onMouseDown e w :
  button e = 0 ->
  let p := eval (getMousePos e) w in
  let ids := eval (fetchHandleId p) w in
  let r := labels_onMouseDown p (fst ids) (snd ids) (_labels (this w)) in
  emitted (onMouseDown e) w =
  (if truthy_flag (_keyDownMap (this w) !! "Control") then []
   else sampling p (this w) ++ [LabelsOnMouseDown p (fst ids) (snd ids)]
        ++ (if fst r then [StopPropagation e] else []))
  ++ drawing (this w).
Proof.
  intros Hb p ids r. apply emitted_app.
  unfold exec at 1. rewrite (onMouseDown_run e w Hb). cbn [snd].
  rewrite redraw_trace. fold p ids r.
  destruct (truthy_flag (_keyDownMap (this w) !! "Control")).
  - reflexivity.
  - unfold with_labels, logged; cbn. rewrite <- !app_assoc. reflexivity.
Qed.

Lemma emitted_onMouseMove e w :
  let p := eval (getMousePos e) w in
  let ids := eval (fetchHandleId p) w in
  let size := getCurrentImageSize (session_state (session w)) in
  let r := labels_onMouseMove p size (fst ids) (snd ids) (_labels (this w)) in
  emitted (onMouseMove e) w =
  (if truthy_flag (_keyDownMap (this w) !! "Control") then []
   else cursor_reset (this w))
  ++ sampling p (this w)
  ++ [LabelsOnMouseMove p size (fst ids) (snd ids)]
  ++ (if fst r then StopPropagation e :: drawing (this w) else []).
Proof.
  intros p ids size r. apply emitted_app.
  unfold exec at 1. rewrite (onMouseMove_run e w). cbn [snd].
  fold p ids size r.
  destruct (fst r).
  - rewrite redraw_trace. unfold with_labels, logged; cbn.
    rewrite <- !app_assoc. reflexivity.
  - unfold with_labels, logged; cbn. rewrite <- ?app_assoc, ?app_nil_r.
    reflexivity.
Qed.

Lemma cursor_reset_no_forward (v : Label2dViewer) :
  List.filter is_forward (cursor_reset v) = [].
Proof. unfold cursor_reset. destruct (labelCanvas v); reflexivity. Qed.

(** ** The claims about the pointer handlers *)

Lemma non_primary_button_is_ignored_frame e w :
  button e <> 0 ->
  exec (onMouseDown e) w = w /\ exec (onMouseUp e) w = w.
Proof.
  intros Hb. unfold exec, onMouseDown, onMouseUp.
  destruct (Z.eqb_spec (button e) 0) as [Heq|_]; [contradiction|].
  split; reflexivity.
Qed.

(** C10.  A mouse-down or a mouse-up whose button is not the primary one
    ([e.button !== 0]) returns at once: the viewer, the label list, the
    canvases and the log of calls are all as before, so no position was
    computed, no handle decoded, nothing forwarded and nothing redrawn. *)
Theorem non_primary_button_is_ignored e w :
  button e <> 0 ->
  onMouseDown e w = (tt, w) /\ onMouseUp e w = (tt, w).
Proof.
  intros Hb. unfold onMouseDown, onMouseUp.
  destruct (Z.eqb_spec (button e) 0) as [Heq|_]; [contradiction|].
  split; reflexivity.
Qed.

Lemma holding_getMousePos e keys w :
  eval (getMousePos e) (holding keys w) = eval (getMousePos e) w.
Proof.
  unfold getMousePos, holding. step.
  destruct (display (this w)), (labelCanvas (this w)); reflexivity.
Qed.

Lemma holding_fetchHandleId p keys w :
  eval (fetchHandleId p) (holding keys w) = eval (fetchHandleId p) w.
Proof.
  unfold fetchHandleId, holding. step.
  destruct (controlContext (this w)); cbn; [|reflexivity].
  destruct (toCanvasCoords p true (displayToImageRatio (this w))); reflexivity.
Qed.

Lemma filter_forward_single (a c : list Effect) (f : Effect) :
  List.filter is_forward a = [] ->
  List.filter is_forward c = [] ->
  is_forward f = true ->
  List.filter is_forward (a ++ [f] ++ c) = [f].
Proof.
  intros Ha Hc Hf. rewrite !List.filter_app, Ha, Hc. cbn. rewrite Hf. reflexivity.
Qed.

(** C4, as the code has it.  A mouse-up with the primary button is
    forwarded to [onMouseUp] of the label list whatever keys are held: the
    call is the only pointer call made, its arguments do not depend on the
    key map, and the list moves to the state its [onMouseUp] returns. *)
Theorem primary_mouse_up_is_forwarded e w (keys : gmap string bool) :
  button e = 0 ->
  let p := eval (getMousePos e) w in
  let ids := eval (fetchHandleId p) w in
  List.filter is_forward (emitted (onMouseUp e) (holding keys w))
  = [LabelsOnMouseUp p (fst ids) (snd ids)]
  /\ _labels (this (exec (onMouseUp e) (holding keys w)))
     = labels_onMouseUp p (fst ids) (snd ids) (_labels (this w)).
Proof.
  intros Hb p ids. split.
  - rewrite (emitted_onMouseUp e (holding keys w) Hb).
    rewrite holding_getMousePos, holding_fetchHandleId. fold p ids.
    apply filter_forward_single.
    + apply sampling_no_forward.
    + apply drawing_no_forward.
    + reflexivity.
  - unfold exec at 1. rewrite (onMouseUp_run e (holding keys w) Hb).
    cbn [snd]. rewrite redraw_this.
    rewrite holding_getMousePos, holding_fetchHandleId. reflexivity.
Qed.

(** C3, as the code has it.  Every mouse-move is forwarded to
    [onMouseMove] of the label list, with Control held or not; the key
    gates only the reset of the cursor to the crosshair. *)
Theorem mouse_move_is_always_forwarded e w :
  let p := eval (getMousePos e) w in
  let ids := eval (fetchHandleId p) w in
  let size := getCurrentImageSize (session_state (session w)) in
  List.filter is_forward (emitted (onMouseMove e) w)
  = [LabelsOnMouseMove p size (fst ids) (snd ids)]
  /\ List.filter is_SetStyleCursor (emitted (onMouseMove e) w)
     = if truthy_flag (_keyDownMap (this w) !! "Control") then []
       else cursor_reset (this w).
Proof.
  intros p ids size. rewrite (emitted_onMouseMove e w). fold p ids size.
  set (r := labels_onMouseMove p size (fst ids) (snd ids) (_labels (this w))).
  split.
  - rewrite !List.filter_app, sampling_no_forward.
    replace (List.filter is_forward
               (if truthy_flag (_keyDownMap (this w) !! "Control")
                then [] else cursor_reset (this w))) with (@nil Effect)
      by (destruct (truthy_flag _); [reflexivity|];
          symmetry; apply cursor_reset_no_forward).
    replace (List.filter is_forward
               (if fst r then StopPropagation e :: drawing (this w) else []))
      with (@nil Effect)
      by (destruct (fst r); [|reflexivity];
          cbn; symmetry; apply drawing_no_forward).
    reflexivity.
  - rewrite !List.filter_app.
    replace (List.filter is_SetStyleCursor (sampling p (this w)))
      with (@nil Effect)
      by (unfold sampling; destruct (controlContext (this w)); reflexivity).
    replace (List.filter is_SetStyleCursor
               (if fst r then StopPropagation e :: drawing (this w) else []))
      with (@nil Effect)
      by (destruct (fst r); [|reflexivity]; unfold drawing;
          destruct (labelCanvas (this w)), (labelContext (this w)),
            (controlCanvas (this w)), (controlContext (this w));
          reflexivity).
    cbn. rewrite app_nil_r.
    destruct (truthy_flag (_keyDownMap (this w) !! "Control"));
      [reflexivity|].
    unfold cursor_reset. destruct (labelCanvas (this w)); reflexivity.
Qed.

Lemma sampling_only_reads p (v : Label2dViewer) :
  List.filter is_CallGetImageData (sampling p v) = sampling p v.
Proof. unfold sampling. destruct (controlContext v); reflexivity. Qed.

Lemma drawing_no_read (v : Label2dViewer) :
  List.filter is_CallGetImageData (drawing v) = [].
Proof.
  unfold drawing.
  destruct (labelCanvas v), (labelContext v), (controlCanvas v),
    (controlContext v); reflexivity.
Qed.

(** C5, as the code has it.  On a mouse-down with the primary button and
    Control not held, the handler takes the logical point of the pointer,
    reads one 4x4 block of the control canvas at the up-resolved canvas
    coordinates of that point, decodes it into a pair and forwards point
    and pair to [onMouseDown] of the label list.  The point is the
    normalized position when the display and the label canvas are there,
    and the origin when one of them is null; independently of that, the
    pair is the decoded block when the control context is there, and
    [(-1, 0)] with nothing read when it is null.  With Control held nothing
    is read and nothing is forwarded. *)
Theorem primary_mouse_down_is_forwarded e w :
  button e = 0 ->
  let p := eval (getMousePos e) w in
  let ids := eval (fetchHandleId p) w in
  let held := truthy_flag (_keyDownMap (this w) !! "Control") in
  let ratio := displayToImageRatio (this w) in
  List.filter is_forward (emitted (onMouseDown e) w)
  = (if held then [] else [LabelsOnMouseDown p (fst ids) (snd ids)])
  /\ _labels (this (exec (onMouseDown e) w))
     = (if held then _labels (this w)
        else snd (labels_onMouseDown p (fst ids) (snd ids) (_labels (this w))))
  /\ List.filter is_CallGetImageData (emitted (onMouseDown e) w)
     = (if held then [] else sampling p (this w))
  /\ (forall d canvas,
        display (this w) = Some d ->
        labelCanvas (this w) = Some canvas ->
        p = normalizeMouseCoordinates d canvas
              (canvasWidth (this w)) (canvasHeight (this w)) ratio
              (clientX e) (clientY e))
  /\ (display (this w) = None \/ labelCanvas (this w) = None ->
      p = mkVector2D 0 0)
  /\ (forall context,
        controlContext (this w) = Some context ->
        let xy := toCanvasCoords p true ratio in
        sampling p (this w)
        = [CallGetImageData context (fst xy) (snd xy) 4 4]
        /\ ids = imageDataToHandleId
                   (getImageData context (fst xy) (snd xy) 4 4 (raster w)))
  /\ (controlContext (this w) = None ->
      sampling p (this w) = [] /\ ids = (-1, 0)).
Proof.
  intros Hb p ids held ratio.
  pose proof (emitted_onMouseDown e w Hb) as He.
  pose proof (onMouseDown_run e w Hb) as Hr.
  cbv zeta in He, Hr. fold p in He, Hr. fold ids in He, Hr.
  fold held in He, Hr.
  set (r := labels_onMouseDown p (fst ids) (snd ids) (_labels (this w))) in *.
  split; [|split; [|split; [|split; [|split; [|split]]]]].
  - rewrite He. destruct held.
    + cbn [app]. apply drawing_no_forward.
    + rewrite <- !app_assoc. apply filter_forward_single.
      * apply sampling_no_forward.
      * rewrite List.filter_app, drawing_no_forward.
        destruct (fst r); reflexivity.
      * reflexivity.
  - unfold exec at 1. rewrite Hr. cbn [snd]. rewrite redraw_this.
    destruct held; reflexivity.
  - rewrite He. destruct held.
    + cbn [app]. apply drawing_no_read.
    + rewrite !List.filter_app, sampling_only_reads, drawing_no_read.
      destruct (fst r); cbn [List.filter is_CallGetImageData app];
        rewrite ?app_nil_r; reflexivity.
  - intros d canvas Hd Hc.
    subst p. unfold getMousePos. step. rewrite Hd, Hc. reflexivity.
  - intros Hn. subst p. unfold getMousePos. step.
    destruct Hn as [Hn|Hn]; rewrite Hn; [reflexivity|].
    destruct (display (this w)); reflexivity.
  - intros context Hx xy. split.
    + unfold sampling. rewrite Hx. reflexivity.
    + subst ids. unfold fetchHandleId. step. rewrite Hx.
      fold ratio. subst xy.
      destruct (toCanvasCoords p true ratio) as [x y]. reflexivity.
  - intros Hx. split.
    + unfold sampling. rewrite Hx. reflexivity.
    + subst ids. unfold fetchHandleId. step. rewrite Hx. reflexivity.
Qed.

(** C7, as the code has it.  With the two canvases and the two contexts in
    place, [redraw] clears the label canvas, clears the control canvas and
    then has the label list draw, in this order; with any of them null it
    does nothing.  It answers [true] in both cases. *)
Theorem redraw_clears_then_delegates w :
  eval redraw w = true
  /\ (forall lc lx cc cx,
        labelCanvas (this w) = Some lc ->
        labelContext (this w) = Some lx ->
        controlCanvas (this w) = Some cc ->
        controlContext (this w) = Some cx ->
        let ratio := (displayToImageRatio (this w) * UP_RES_RATIO)%js in
        emitted redraw w
        = [CallClearCanvas lc lx; CallClearCanvas cc cx;
           LabelsRedraw lx cx ratio]
        /\ raster (exec redraw w)
           = labels_redraw lx cx ratio (_labels (this w))
               (clearCanvas cc cx (clearCanvas lc lx (raster w))))
  /\ (labelCanvas (this w) = None \/ labelContext (this w) = None
      \/ controlCanvas (this w) = None \/ controlContext (this w) = None ->
      exec redraw w = w).
Proof.
  unfold eval, exec. rewrite redraw_run. cbn [fst snd].
  split; [reflexivity|]. split.
  - intros lc lx cc cx H1 H2 H3 H4.
    split.
    + apply emitted_app. unfold exec. rewrite redraw_run, H1, H2, H3, H4.
      reflexivity.
    + rewrite H1, H2, H3, H4. reflexivity.
  - intros [Hn|[Hn|[Hn|Hn]]]; rewrite Hn;
      destruct (labelCanvas (this w)), (labelContext (this w)),
        (controlCanvas (this w)), (controlContext (this w));
      try reflexivity; discriminate.
Qed.

(** ** The view scale *)


(** What it lets through is [MIN_SCALE, MAX_SCALE), and [NaN], of which
    neither comparison holds. *)
Lemma guard_accepts (v : number) :
  guard_passes v = true
  <-> (MIN_SCALE <= v /\ v < MAX_SCALE)%js \/ v = NaN.
Proof.
  unfold guard_passes. destruct v as [q| | |]; cbn.
  - unfold Qlt_bool.
    destruct (Qle_bool MIN_SCALE q), (Qle_bool MAX_SCALE q); cbn;
      split; intros Hx; try discriminate; auto;
      destruct Hx as [[Ha Hb]|Hn]; discriminate.
  - split; [discriminate|]. intros [[_ Hb]|Hn]; discriminate.
  - split; [discriminate|]. intros [[Ha _]|Hn]; discriminate.
  - split; auto.
Qed.

Lemma NaN_passes_the_guard : guard_passes NaN = true.
Proof. reflexivity. Qed.

Lemma infinities_are_rejected :
  guard_passes PosInfinity = false /\ guard_passes NegInfinity = false.
Proof. split; reflexivity. Qed.

Lemma guard_accepts_range (v : number) :
  (MIN_SCALE <= v /\ v < MAX_SCALE)%js -> guard_passes v = true.
Proof. intros Hin. apply guard_accepts. left. exact Hin. Qed.



(** The world a request leaves when it is applied. *)
Lemma request_applied (r : ScaleRequest) (d : HTMLDivElement) w :
  display (this w) = Some d ->
  guard_passes (req_viewScale r) = true ->
  let config := getCurrentImageViewerConfig (req_state r) in
  let zoomRatio := (req_viewScale r / scale (this w))%js in
  let res :=
    updateCanvasScale d (req_canvas r) (req_context r) config zoomRatio
      (req_upRes r) (raster w) in
  exec (request r) w =
  {| this := set_scale_fields (fst res) (this w);
     props_display := props_display w;
     session := store_state (req_state r) (session w);
     raster := snd res;
     document_listeners := document_listeners w;
     trace :=
       trace w ++
       [CallUpdateCanvasScale d (req_canvas r) (req_context r) config
          zoomRatio (req_upRes r)] |}.
Proof.
  intros Hd Hin config zoomRatio res. unfold request, updateScale. step.
  rewrite Hd. unfold guard_passes, req_viewScale in Hin.
  apply negb_true_iff in Hin.
  step. cbn [session_state store_state]. rewrite Hin.
  subst res zoomRatio config. unfold req_viewScale. step.
  cbn [session_state store_state].
  destruct (updateCanvasScale _ _ _ _ _ _ _) as [t px]. reflexivity.
Qed.

Lemma set_scale_fields_scale
    (t : number * number * number * number) (v : Label2dViewer) :
  scale (set_scale_fields t v) = snd t
  /\ displayToImageRatio (set_scale_fields t v) = snd (fst t)
  /\ canvasHeight (set_scale_fields t v) = snd (fst (fst t))
  /\ canvasWidth (set_scale_fields t v) = fst (fst (fst t))
  /\ display (set_scale_fields t v) = display v.
Proof. destruct t as [[[a b] c] d]. repeat split. Qed.




(** ** References that are still null *)

(** C6, as the code has it.  While references are null nothing throws:
    every method is defined on every world.  The methods that need a
    missing reference do nothing: [setCursor] without the label canvas,
    [updateScale] and the two [ref] callbacks without the display, and
    [redraw] without any of the four canvas references.  The pointer path
    does not stop: [getMousePos] answers with the origin, [fetchHandleId]
    answers [(-1, 0)] without reading a canvas, and the handlers forward
    these values to the label list. *)
Theorem null_references_are_tolerated w :
  (forall cursor, labelCanvas (this w) = None -> setCursor cursor w = (tt, w))
  /\ (forall canvas context upRes,
        display (this w) = None ->
        updateScale canvas context upRes w = (tt, w))
  /\ (forall canvas,
        display (this w) = None ->
        controlCanvasRef canvas w = (tt, w)
        /\ labelCanvasRef canvas w = (tt, w))
  /\ (labelCanvas (this w) = None \/ labelContext (this w) = None
      \/ controlCanvas (this w) = None \/ controlContext (this w) = None ->
      redraw w = (true, w))
  /\ (forall e,
        display (this w) = None \/ labelCanvas (this w) = None ->
        getMousePos e w = (mkVector2D 0 0, w))
  /\ (forall p,
        controlContext (this w) = None -> fetchHandleId p w = ((-1, 0), w))
  /\ (forall e,
        button e = 0 ->
        labelCanvas (this w) = None ->
        controlContext (this w) = None ->
        let origin := mkVector2D 0 0 in
        let size := getCurrentImageSize (session_state (session w)) in
        (truthy_flag (_keyDownMap (this w) !! "Control") = false ->
         emitted (onMouseDown e) w
         = LabelsOnMouseDown origin (-1) 0
           :: (if fst (labels_onMouseDown origin (-1) 0 (_labels (this w)))
               then [StopPropagation e] else []))
        /\ emitted (onMouseUp e) w = [LabelsOnMouseUp origin (-1) 0]
        /\ emitted (onMouseMove e) w
           = LabelsOnMouseMove origin size (-1) 0
             :: (if fst (labels_onMouseMove origin size (-1) 0
                           (_labels (this w)))
                 then [StopPropagation e] else [])).
Proof.
  assert (Hpos : forall e,
             display (this w) = None \/ labelCanvas (this w) = None ->
             getMousePos e w = (mkVector2D 0 0, w)).
  { intros e Hn. unfold getMousePos. step.
    destruct Hn as [Hn|Hn]; rewrite Hn; [reflexivity|].
    destruct (display (this w)); reflexivity. }
  assert (Hid : forall p,
             controlContext (this w) = None ->
             fetchHandleId p w = ((-1, 0), w)).
  { intros p Hn. unfold fetchHandleId. step. rewrite Hn. reflexivity. }
  split; [|split; [|split; [|split; [|split; [|split]]]]].
  - intros cursor Hn. unfold setCursor. step. rewrite Hn. reflexivity.
  - intros canvas context upRes Hn. unfold updateScale. step.
    rewrite Hn. reflexivity.
  - intros canvas Hn. unfold controlCanvasRef, labelCanvasRef. step.
    rewrite Hn. destruct canvas; split; reflexivity.
  - intros Hn. rewrite redraw_run.
    destruct Hn as [Hn|[Hn|[Hn|Hn]]]; rewrite Hn;
      destruct (labelCanvas (this w)), (labelContext (this w)),
        (controlCanvas (this w)), (controlContext (this w));
      try reflexivity; discriminate.
  - exact Hpos.
  - exact Hid.
  - intros e Hb Hc Hx origin size.
    assert (Hp : eval (getMousePos e) w = origin).
    { unfold eval. rewrite Hpos by (right; exact Hc). reflexivity. }
    assert (Hi : forall p, eval (fetchHandleId p) w = (-1, 0)).
    { intros p. unfold eval. rewrite Hid by exact Hx. reflexivity. }
    assert (Hs : forall p, sampling p (this w) = []).
    { intros p. unfold sampling. rewrite Hx. reflexivity. }
    assert (Hdr : drawing (this w) = []).
    { unfold drawing. rewrite Hc. reflexivity. }
    split; [|split].
    + intros Hk. rewrite (emitted_onMouseDown e w Hb).
      rewrite Hk, Hp, Hi, Hs, Hdr. cbn [fst snd app].
      rewrite app_nil_r. reflexivity.
    + rewrite (emitted_onMouseUp e w Hb).
      rewrite Hp, Hi, Hs, Hdr. reflexivity.
    + rewrite (emitted_onMouseMove e w).
      rewrite Hp, Hi, Hs, Hdr. fold size. cbn [fst snd app].
      unfold cursor_reset. rewrite Hc.
      destruct (truthy_flag (_keyDownMap (this w) !! "Control")); reflexivity.
Qed.

(** ** Who hears a mouse-up *)

Lemma listenersFor_add_other (t t' : string) (h : Handler) ls :
  String.eqb t t' = false ->
  listenersFor t (addEventListener t' h ls) = listenersFor t ls.
Proof.
  intros Hne. unfold addEventListener, listenersFor.
  destruct (existsb _ ls); [reflexivity|].
  rewrite List.filter_app, map_app. cbn. rewrite Hne. cbn.
  apply app_nil_r.
Qed.

Lemma redraw_document w :
  document_listeners (exec redraw w) = document_listeners w.
Proof.
  unfold exec. rewrite redraw_run. unfold redrawn. cbn [snd].
  destruct (labelCanvas (this w)), (labelContext (this w)),
    (controlCanvas (this w)), (controlContext (this w)); reflexivity.
Qed.

(** No handler of the page registers or removes a listener. *)
Lemma invoke_document (h : Handler) (ev : DomEvent) w :
  document_listeners (exec (invoke h ev) w) = document_listeners w.
Proof.
  destruct h, ev as [t tg e|t k]; try reflexivity; cbn [invoke].
  - destruct (Z.eq_dec (button e) 0) as [Hb|Hb].
    + unfold exec at 1. rewrite (onMouseDown_run e w Hb). cbn [snd].
      rewrite redraw_document.
      destruct (truthy_flag (_keyDownMap (this w) !! "Control")); reflexivity.
    + destruct (non_primary_button_is_ignored_frame e w Hb) as [-> _].
      reflexivity.
  - destruct (Z.eq_dec (button e) 0) as [Hb|Hb].
    + unfold exec at 1. rewrite (onMouseUp_run e w Hb). cbn [snd].
      rewrite redraw_document. reflexivity.
    + destruct (non_primary_button_is_ignored_frame e w Hb) as [_ ->].
      reflexivity.
  - unfold exec at 1. rewrite (onMouseMove_run e w). cbn [snd].
    destruct (fst _); [rewrite redraw_document|]; reflexivity.
  - unfold onKeyUp. unfold exec, bind at 1. unfold modify_this at 1.
    destruct (String.eqb (key k) "Control" || String.eqb (key k) "Meta").
    + rewrite setDefaultCursor_run. reflexivity.
    + reflexivity.
  - unfold ToolBar_keyDownHandler, Session_dispatchM.
    destruct (String.eqb (key k) "Backspace"); [|reflexivity]. step.
    destruct (0 <=? _); reflexivity.
Qed.

Lemma invoke_all_document (hs : list Handler) (ev : DomEvent) w :
  document_listeners (exec (invoke_all hs ev) w) = document_listeners w.
Proof.
  revert w. induction hs as [|h hs IH]; intros w; [reflexivity|].
  unfold exec. cbn [invoke_all]. unfold bind at 1.
  pose proof (invoke_document h ev w) as Hh. unfold exec in Hh.
  destruct (invoke h ev w) as [[] w1]. cbn [snd] in Hh.
  rewrite <- Hh. apply IH.
Qed.

Lemma dispatchAll_document (evs : list DomEvent) w :
  document_listeners (exec (dispatchAll evs) w) = document_listeners w.
Proof.
  revert w. induction evs as [|ev evs IH]; intros w; [reflexivity|].
  unfold exec. cbn [dispatchAll]. unfold bind at 1.
  pose proof (invoke_all_document (observers ev w) ev w) as Hh.
  unfold exec in Hh. unfold dispatchEvent at 1.
  destruct (invoke_all (observers ev w) ev w) as [[] w1]. cbn [snd] in Hh.
  rewrite <- Hh. apply IH.
Qed.

(** C1, as the code has it.  The viewer hears a mouse-up only through the
    handler that [render] puts on the label canvas.  Mounting registers
    nothing for mouse-up on the document and no later event does; so in
    every world the page comes to, a release over the label canvas runs
    [onMouseUp], and a release anywhere else reaches no handler and leaves
    the viewer and its label list as they were. *)
Theorem mouse_up_is_heard_on_the_label_canvas_only
    e w (evs : list DomEvent) :
  listenersFor "mouseup" (document_listeners w) = [] ->
  let w1 := exec (componentDidMount ;;; dispatchAll evs) w in
  listenersFor "mouseup" (document_listeners w1) = []
  /\ dispatchEvent (MouseDom "mouseup" (OverCanvas LabelCanvasKey) e) w1
     = onMouseUp e w1
  /\ dispatchEvent (MouseDom "mouseup" (OverCanvas ControlCanvasKey) e) w1
     = (tt, w1)
  /\ dispatchEvent (MouseDom "mouseup" OutsideCanvas e) w1 = (tt, w1).
Proof.
  intros Hnone w1.
  assert (Hw1 : listenersFor "mouseup" (document_listeners w1) = []).
  { subst w1. unfold exec. unfold bind at 1.
    destruct (componentDidMount w) as [[] w0] eqn:Hm.
    change (snd (dispatchAll evs w0)) with (exec (dispatchAll evs) w0).
    rewrite dispatchAll_document.
    assert (Hw0 : w0 = exec componentDidMount w)
      by (unfold exec; rewrite Hm; reflexivity).
    rewrite Hw0. unfold componentDidMount. step.
    rewrite !listenersFor_add_other by reflexivity. exact Hnone. }
  split; [exact Hw1|]. clearbody w1.
  split; [|split].
  - unfold dispatchEvent, observers. cbn [event_type]. rewrite Hw1.
    cbn. unfold bind, ret. destruct (onMouseUp e w1) as [[] w2]. reflexivity.
  - unfold dispatchEvent, observers. cbn [event_type]. rewrite Hw1.
    reflexivity.
  - unfold dispatchEvent, observers. cbn [event_type]. rewrite Hw1.
    reflexivity.
Qed.

(** ** The tool bar *)

(** X19.  The Delete button does what Backspace does: [onDeleteLabel]
    and the key handler on Backspace leave the same world. *)
Lemma onDeleteLabel_is_backspace (e : KeyboardEvent) w :
  key e = "Backspace" -> onDeleteLabel w = ToolBar_keyDownHandler e w.
Proof.
  intros Hk. unfold onDeleteLabel, ToolBar_keyDownHandler.
  rewrite Hk, String.eqb_refl. reflexivity.
Qed.

(** C8.  Backspace with a label selected ([select.label >= 0]) hands the
    store exactly one action, [deleteLabel(select.item, select.label)], and
    changes nothing else; Backspace with no label selected changes
    nothing. *)
Theorem backspace_deletes_the_selected_label (e : KeyboardEvent) w :
  key e = "Backspace" ->
  let select := user_select (session_state (session w)) in
  (0 <= select_label select ->
   ToolBar_keyDownHandler e w
   = (tt, dispatching (deleteLabel (select_item select) (select_label select))
            w)
   /\ dispatched (session (exec (ToolBar_keyDownHandler e) w))
      = dispatched (session w)
        ++ [deleteLabel (select_item select) (select_label select)])
  /\ (select_label select < 0 -> ToolBar_keyDownHandler e w = (tt, w)).
Proof.
  intros Hk select. unfold ToolBar_keyDownHandler.
  rewrite Hk, String.eqb_refl. unfold Session_dispatchM. step. fold select.
  split.
  - intros Hsel. apply Z.leb_le in Hsel. rewrite Hsel.
    unfold dispatching. split; reflexivity.
  - intros Hsel. apply Z.leb_gt in Hsel. rewrite Hsel. reflexivity.
Qed.

(** ** Listeners after unmount *)

Lemma Handler_eqb_eq (a b : Handler) : Handler_eqb a b = true <-> a = b.
Proof.
  split.
  - destruct a, b; cbn; intros Hab; try reflexivity; discriminate.
  - intros ->. destruct b; reflexivity.
Qed.

Lemma Listener_eqb_eq (a b : Listener) : Listener_eqb a b = true <-> a = b.
Proof.
  destruct a as [ta ha], b as [tb hb]. unfold Listener_eqb. cbn [fst snd].
  rewrite andb_true_iff, String.eqb_eq, Handler_eqb_eq.
  split; [intros [-> ->]; reflexivity|intros Hab; inversion Hab; auto].
Qed.

Lemma addEventListener_In (t : string) (h : Handler) ls :
  In (t, h) (addEventListener t h ls).
Proof.
  unfold addEventListener.
  destruct (existsb (Listener_eqb (t, h)) ls) eqn:Hex.
  - apply existsb_exists in Hex. destruct Hex as (l & Hin & Heq).
    apply Listener_eqb_eq in Heq. subst l. exact Hin.
  - apply in_or_app. right. left. reflexivity.
Qed.

Lemma addEventListener_keeps (t : string) (h : Handler) (l : Listener) ls :
  In l ls -> In l (addEventListener t h ls).
Proof.
  intros Hin. unfold addEventListener.
  destruct (existsb (Listener_eqb (t, h)) ls); [exact Hin|].
  apply in_or_app. left. exact Hin.
Qed.

Lemma filter_out_absent (x : Listener) ls :
  ~ In x ls -> List.filter (fun l => negb (Listener_eqb x l)) ls = ls.
Proof.
  induction ls as [|a ls IH]; intros Hn; [reflexivity|].
  cbn. destruct (Listener_eqb x a) eqn:Hxa.
  - apply Listener_eqb_eq in Hxa. subst a. exfalso. apply Hn. left.
    reflexivity.
  - cbn. rewrite IH; [reflexivity|]. intros Hin. apply Hn. right. exact Hin.
Qed.

(** X18.  The tool bar does remove what it added: when its listener was
    not on the document before, a mount followed by an unmount leaves the
    page as it was. *)
Lemma toolbar_listener_is_removed w :
  ~ In ("keydown", toolBarKeyDownHandler) (document_listeners w) ->
  exec (ToolBar_componentDidMount ;;; ToolBar_componentWillUnmount) w = w.
Proof.
  intros Hn. unfold ToolBar_componentDidMount, ToolBar_componentWillUnmount.
  step. unfold addEventListener, removeEventListener.
  destruct (existsb _ (document_listeners w)) eqn:Hex.
  - apply existsb_exists in Hex. destruct Hex as (l & Hin & Heq).
    apply Listener_eqb_eq in Heq. subst l. contradiction.
  - rewrite List.filter_app, filter_out_absent by exact Hn. cbn.
    rewrite app_nil_r. apply world_eta.
Qed.

(** C9, the defect.  The viewer registers its two key listeners when it
    mounts and has no code that runs when it unmounts, so after a mount and
    an unmount both listeners are still on the document. *)
Theorem viewer_key_listeners_survive_unmount w :
  let w1 := exec (componentDidMount ;;; componentWillUnmount) w in
  In ("keydown", keyDownHandler) (document_listeners w1)
  /\ In ("keyup", keyUpHandler) (document_listeners w1).
Proof.
  unfold componentDidMount, componentWillUnmount. step. split.
  - apply addEventListener_keeps, addEventListener_In.
  - apply addEventListener_In.
Qed.

End Facts.

(** * Further properties of the viewer and of the tool bar *)

Section MoreFacts.

Context `{LL : Label2DListOps}.

Implicit Types (w : World) (e : MouseEvent) (v : Label2dViewer).

Ltac run :=
  unfold exec, eval, emitted, bind, ret, get_this, log, props,
    modify_this, modify_raster, modify_document, modify_session,
    modify_props, Session_getState, Session_dispatchM in *;
  cbn [fst snd this props_display session raster document_listeners trace
       labelContext controlContext _labels labelCanvas controlCanvas
       display scale canvasHeight canvasWidth displayToImageRatio
       _keyDownMap set_labels set_keyDownMap set_display] in *.

(** ** The key map *)

Lemma onKeyDown_run (k : KeyboardEvent) w :
  onKeyDown k w
  = (tt, holding (<[key k := true]> (_keyDownMap (this w))) w).
Proof. reflexivity. Qed.

Lemma onKeyUp_run (k : KeyboardEvent) w :
  onKeyUp k w
  = (tt,
     logged
       (if String.eqb (key k) "Control" || String.eqb (key k) "Meta"
        then cursor_reset (this w) else [])
       (holding (delete (key k) (_keyDownMap (this w))) w)).
Proof.
  unfold onKeyUp. unfold bind at 1. unfold modify_this at 1.
  destruct (String.eqb (key k) "Control" || String.eqb (key k) "Meta").
  - rewrite setDefaultCursor_run. reflexivity.
  - unfold ret. rewrite logged_nil. reflexivity.
Qed.

(** X1.  A key-down makes [isKeyDown] of that key answer [true] and a
    key-up makes it answer [undefined]; the answer for every other key is
    as before. *)
Theorem key_events_set_and_clear_one_key (k : KeyboardEvent) (q : string) w :
  eval (isKeyDown q) (exec (onKeyDown k) w)
  = (if decide (key k = q) then Some true else eval (isKeyDown q) w)
  /\ eval (isKeyDown q) (exec (onKeyUp k) w)
     = (if decide (key k = q) then None else eval (isKeyDown q) w).
Proof.
  unfold exec. rewrite onKeyDown_run, onKeyUp_run. cbn [snd].
  unfold isKeyDown, holding, logged. run. split.
  - apply lookup_insert.
  - apply lookup_delete.
Qed.

(** X2.  Pressing and releasing a key that was not held gives back the key
    map as it was. *)
Theorem key_press_release_round_trip (k : KeyboardEvent) w :
  _keyDownMap (this w) !! key k = None ->
  _keyDownMap (this (exec (onKeyDown k ;;; onKeyUp k) w))
  = _keyDownMap (this w).
Proof.
  intros Hfree. unfold exec. unfold bind at 1. rewrite onKeyDown_run.
  rewrite onKeyUp_run. cbn [snd]. unfold holding, logged. run.
  rewrite delete_insert_eq. apply delete_id. exact Hfree.
Qed.

(** ** What an event can change in the viewer *)

Lemma touched_refl v : touched v v.
Proof.
  exists (_labels v), (_keyDownMap v). split; [|auto].
  destruct v; reflexivity.
Qed.

Lemma touched_trans v1 v2 v3 : touched v1 v2 -> touched v2 v3 -> touched v1 v3.
Proof.
  intros (l1 & m1 & -> & H1) (l2 & m2 & -> & H2).
  exists l2, m2. split; [reflexivity|]. intros Hk. apply H2. cbn. auto.
Qed.

Lemma touched_labels v l : touched v (set_labels l v).
Proof.
  exists l, (_keyDownMap v). split; [reflexivity|auto].
Qed.

Lemma keys_are_true_insert (m : gmap string bool) (k : string) :
  keys_are_true m -> keys_are_true (<[k := true]> m).
Proof.
  intros Hm q b. rewrite lookup_insert. case_decide.
  - intros [= <-]. reflexivity.
  - apply Hm.
Qed.

Lemma keys_are_true_delete (m : gmap string bool) (k : string) :
  keys_are_true m -> keys_are_true (delete k m).
Proof.
  intros Hm q b. rewrite lookup_delete. case_decide; [discriminate|apply Hm].
Qed.

Lemma invoke_touched (h : Handler) (ev : DomEvent) w :
  touched (this w) (this (exec (invoke h ev) w)).
Proof.
  destruct h, ev as [t tg e|t k]; cbn [invoke]; try apply touched_refl.
  - destruct (Z.eq_dec (button e) 0) as [Hb|Hb].
    + unfold exec at 1. rewrite (onMouseDown_run e w Hb). cbn [snd].
      rewrite redraw_this.
      destruct (truthy_flag (_keyDownMap (this w) !! "Control"));
        [apply touched_refl|apply touched_labels].
    + destruct (non_primary_button_is_ignored_frame e w Hb) as [-> _].
      apply touched_refl.
  - destruct (Z.eq_dec (button e) 0) as [Hb|Hb].
    + unfold exec at 1. rewrite (onMouseUp_run e w Hb). cbn [snd].
      rewrite redraw_this. apply touched_labels.
    + destruct (non_primary_button_is_ignored_frame e w Hb) as [_ ->].
      apply touched_refl.
  - unfold exec at 1. rewrite (onMouseMove_run e w). cbn [snd].
    destruct (fst _); [rewrite redraw_this|]; apply touched_labels.
  - unfold exec. rewrite onKeyDown_run. cbn [snd].
    exists (_labels (this w)), (<[key k := true]> (_keyDownMap (this w))).
    split; [reflexivity|apply keys_are_true_insert].
  - unfold exec. rewrite onKeyUp_run. cbn [snd].
    exists (_labels (this w)), (delete (key k) (_keyDownMap (this w))).
    split; [reflexivity|apply keys_are_true_delete].
  - unfold ToolBar_keyDownHandler.
    destruct (String.eqb (key k) "Backspace"); [|apply touched_refl]. run.
    destruct (0 <=? _); apply touched_refl.
Qed.

Lemma invoke_all_touched (hs : list Handler) (ev : DomEvent) w :
  touched (this w) (this (exec (invoke_all hs ev) w)).
Proof.
  revert w. induction hs as [|h hs IH]; intros w; [apply touched_refl|].
  unfold exec. cbn [invoke_all]. unfold bind at 1.
  pose proof (invoke_touched h ev w) as Hh. unfold exec in Hh.
  destruct (invoke h ev w) as [[] w1]. cbn [snd] in Hh.
  eapply touched_trans; [exact Hh|apply IH].
Qed.

Lemma dispatchEvent_touched (ev : DomEvent) w :
  touched (this w) (this (exec (dispatchEvent ev) w)).
Proof. apply invoke_all_touched. Qed.

Lemma dispatchAll_touched (evs : list DomEvent) w :
  touched (this w) (this (exec (dispatchAll evs) w)).
Proof.
  revert w. induction evs as [|ev evs IH]; intros w; [apply touched_refl|].
  unfold exec. cbn [dispatchAll]. unfold bind at 1.
  pose proof (dispatchEvent_touched ev w) as Hh. unfold exec in Hh.
  destruct (dispatchEvent ev w) as [[] w1]. cbn [snd] in Hh.
  eapply touched_trans; [exact Hh|apply IH].
Qed.

(** X3.  No sequence of browser events, whatever listeners the document
    holds, changes the display variables or the references of the viewer:
    the two canvases, the two contexts, the display, the canvas width and
    height, [displayToImageRatio] and the scale.  Events reach the label
    list and the key map only. *)
Theorem events_never_rescale (evs : list DomEvent) w :
  display_state (this (exec (dispatchAll evs) w)) = display_state (this w).
Proof.
  destruct (dispatchAll_touched evs w) as (l & m & -> & _). reflexivity.
Qed.

(** ** What the life of a viewer keeps *)

Lemma kept_refl v : kept v v.
Proof. unfold kept. auto. Qed.

Lemma kept_trans v1 v2 v3 : kept v1 v2 -> kept v2 v3 -> kept v1 v3.
Proof.
  intros (A1 & B1 & C1 & D1) (A2 & B2 & C2 & D2).
  split; [auto|]. split; [auto|]. split; [auto|].
  destruct D2 as [D2|D2]; [rewrite D2; exact D1|right; exact D2].
Qed.

Lemma touched_kept v v' : touched v v' -> kept v v'.
Proof.
  intros (l & m & -> & Hm). unfold kept. cbn. auto.
Qed.

Lemma kept_scale_fields (t : number * number * number * number) v :
  accepted_scale (snd t) -> kept v (set_scale_fields t v).
Proof.
  intros Hin. destruct t as [[[a b] c] d]. unfold kept. cbn in *. auto.
Qed.

Lemma updateScale_kept canvas context upRes w :
  kept (this w) (this (exec (updateScale canvas context upRes) w)).
Proof.
  unfold updateScale. run.
  destruct (display (this w)) as [d|]; [|apply kept_refl].
  destruct (number_ltb _ MIN_SCALE || number_leb MAX_SCALE _) eqn:Hg;
    [apply kept_refl|].
  unfold call_updateCanvasScale. run.
  apply kept_scale_fields.
  eexists _, _, _, _, _, _, _. split; cycle 1.
  { reflexivity. }
  unfold guard_passes. rewrite Hg. reflexivity.
Qed.

Lemma kept_set_controlCanvas canvas v : kept v (set_controlCanvas canvas v).
Proof. unfold kept. cbn. auto. Qed.

Lemma kept_set_labelCanvas canvas v : kept v (set_labelCanvas canvas v).
Proof. unfold kept. cbn. auto. Qed.

Lemma controlCanvasRef_kept canvas w :
  kept (this w) (this (exec (controlCanvasRef canvas) w)).
Proof.
  unfold controlCanvasRef. run.
  destruct canvas as [c|]; [|apply kept_refl].
  destruct (display (this w)) as [d|] eqn:Hd; [|apply kept_refl].
  destruct (getContext2d c) as [cx|]; [|apply kept_set_controlCanvas].
  destruct (truthy_number _ && truthy_number _);
    [|apply kept_set_controlCanvas].
  eapply kept_trans; [apply (kept_set_controlCanvas c)|].
  match goal with |- kept _ (this (snd (updateScale ?a ?b ?u ?x))) =>
    apply (updateScale_kept a b u x) end.
Qed.

Lemma labelCanvasRef_kept canvas w :
  kept (this w) (this (exec (labelCanvasRef canvas) w)).
Proof.
  unfold labelCanvasRef. run.
  destruct canvas as [c|]; [|apply kept_refl].
  destruct (display (this w)) as [d|] eqn:Hd; [|apply kept_refl].
  destruct (getContext2d c) as [cx|]; [|apply kept_set_labelCanvas].
  destruct (truthy_number _ && truthy_number _);
    [|apply kept_set_labelCanvas].
  eapply kept_trans; [apply (kept_set_labelCanvas c)|].
  match goal with |- kept _ (this (snd (updateScale ?a ?b ?u ?x))) =>
    apply (updateScale_kept a b u x) end.
Qed.

Lemma componentDidUpdate_this w :
  this (exec componentDidUpdate w)
  = set_labels
      (labels_updateState (session_state (session w))
         (select_item (user_select (session_state (session w))))
         (_labels (this w)))
      (set_display (props_display w) (this w)).
Proof.
  unfold componentDidUpdate, updateState, _labels_updateState. run.
  match goal with |- context [redraw ?x] => rewrite (redraw_exec x) end.
  cbn [snd]. rewrite redraw_this. reflexivity.
Qed.

Lemma perform_kept (o : Op) w :
  kept (this w) (this (exec (perform o) w)).
Proof.
  destruct o; cbn [perform].
  - apply kept_refl.
  - rewrite componentDidUpdate_this. unfold kept. cbn. auto.
  - apply controlCanvasRef_kept.
  - apply labelCanvasRef_kept.
  - apply kept_refl.
  - apply kept_refl.
  - apply touched_kept, dispatchEvent_touched.
  - unfold exec, bind. rewrite redraw_exec. cbn [snd ret].
    rewrite redraw_this. apply kept_refl.
  - unfold setCursor. run. destruct (labelCanvas (this w)); apply kept_refl.
Qed.

Lemma performAll_kept (os : list Op) w :
  kept (this w) (this (exec (performAll os) w)).
Proof.
  revert w. induction os as [|o os IH]; intros w; [apply kept_refl|].
  unfold exec. cbn [performAll]. unfold bind at 1.
  pose proof (perform_kept o w) as Ho. unfold exec in Ho.
  destruct (perform o w) as [[] w1]. cbn [snd] in Ho.
  eapply kept_trans; [exact Ho|apply IH].
Qed.

(** X4.  Through the whole life of a viewer (mount, updates, the [ref]
    callbacks, new props and states, events, redraws) its scale is the one
    it started with, or one within [MIN_SCALE, MAX_SCALE), or [NaN], which
    the guard of [updateScale] lets through as neither of its comparisons
    holds of it; this provided [updateCanvasScale] reports the requested
    scale as the new one. *)
Theorem scale_is_guarded_for_life (os : list Op) w :
  reports_requested_scale ->
  let s' := scale (this (exec (performAll os) w)) in
  s' = scale (this w)
  \/ (MIN_SCALE <= s' /\ s' < MAX_SCALE)%js
  \/ s' = NaN.
Proof.
  intros Hnew s'. destruct (performAll_kept os w) as (_ & _ & _ & Hs).
  destruct Hs as [Hs|(d & c & x & cfg & z & u & px & Hin & Hq)].
  - left. exact Hs.
  - right. subst s'. rewrite Hq, (Hnew _ _ _ _ _ _ _ Hin).
    apply guard_accepts. exact Hin.
Qed.

(** X5.  Once the label canvas or the control canvas reference is set,
    nothing in the life of the viewer sets it back to null, not even the
    [ref] callback that React fires with [null] when the element goes
    away. *)
Theorem canvas_references_are_never_reset (os : list Op) w :
  (is_Some (labelCanvas (this w)) ->
   is_Some (labelCanvas (this (exec (performAll os) w))))
  /\ (is_Some (controlCanvas (this w)) ->
      is_Some (controlCanvas (this (exec (performAll os) w)))).
Proof.
  destruct (performAll_kept os w) as (Hl & Hc & _ & _). split; assumption.
Qed.

(** X6.  The key map only ever holds [true]: starting from a map of [true]
    values (the empty map of the constructor is one), after whatever
    happens to the viewer [isKeyDown] answers [true] or [undefined], never
    [false]. *)
Theorem isKeyDown_is_true_or_undefined (os : list Op) (k : string) w :
  keys_are_true (_keyDownMap (this w)) ->
  let answer := eval (isKeyDown k) (exec (performAll os) w) in
  answer = None \/ answer = Some true.
Proof.
  intros Hk answer. destruct (performAll_kept os w) as (_ & _ & Hm & _).
  specialize (Hm Hk). subst answer. unfold isKeyDown. run.
  destruct (_keyDownMap _ !! k) as [b|] eqn:Hb; [|left; reflexivity].
  right. rewrite (Hm k b Hb). reflexivity.
Qed.

(** ** When a pointer event repaints and when it stops *)

Ltac crush_parts :=
  unfold sampling, drawing, cursor_reset;
  repeat match goal with
  | |- context [match ?x with _ => _ end] => destruct x
  end; reflexivity.

Lemma drawing_is_drawing v : List.filter is_drawing (drawing v) = drawing v.
Proof. crush_parts. Qed.

Lemma sampling_no_drawing p v : List.filter is_drawing (sampling p v) = [].
Proof. crush_parts. Qed.

Lemma cursor_reset_no_drawing v : List.filter is_drawing (cursor_reset v) = [].
Proof. crush_parts. Qed.

Lemma drawing_no_stop v : List.filter is_StopPropagation (drawing v) = [].
Proof. crush_parts. Qed.

Lemma sampling_no_stop p v : List.filter is_StopPropagation (sampling p v) = [].
Proof. crush_parts. Qed.

Lemma cursor_reset_no_stop v :
  List.filter is_StopPropagation (cursor_reset v) = [].
Proof. crush_parts. Qed.

(** X7.  A mouse-down or mouse-up with the primary button ends in exactly
    one redraw, also when Control is held and nothing was forwarded; a
    mouse-move redraws exactly when [onMouseMove] of the label list
    answers that a repaint is required. *)
Theorem pointer_events_and_repaint e w :
  let p := eval (getMousePos e) w in
  let ids := eval (fetchHandleId p) w in
  let size := getCurrentImageSize (session_state (session w)) in
  let repaint :=
    fst (labels_onMouseMove p size (fst ids) (snd ids) (_labels (this w))) in
  (button e = 0 ->
   List.filter is_drawing (emitted (onMouseDown e) w) = drawing (this w)
   /\ List.filter is_drawing (emitted (onMouseUp e) w) = drawing (this w))
  /\ List.filter is_drawing (emitted (onMouseMove e) w)
     = (if repaint then drawing (this w) else []).
Proof.
  intros p ids size repaint. split.
  - intros Hb. split.
    + rewrite (emitted_onMouseDown e w Hb). fold p ids.
      rewrite List.filter_app, drawing_is_drawing.
      destruct (truthy_flag _); [reflexivity|].
      rewrite !List.filter_app, sampling_no_drawing.
      destruct (fst (labels_onMouseDown _ _ _ _)); reflexivity.
    + rewrite (emitted_onMouseUp e w Hb). fold p ids.
      rewrite !List.filter_app, sampling_no_drawing, drawing_is_drawing.
      reflexivity.
  - rewrite (emitted_onMouseMove e w). fold p ids size repaint.
    rewrite !List.filter_app, sampling_no_drawing.
    replace (List.filter is_drawing
               (if truthy_flag (_keyDownMap (this w) !! "Control")
                then [] else cursor_reset (this w))) with (@nil Effect)
      by (destruct (truthy_flag _); [reflexivity|];
          symmetry; apply cursor_reset_no_drawing).
    destruct repaint; [|reflexivity].
    cbn. rewrite drawing_is_drawing. reflexivity.
Qed.

(** X8.  The propagation of a pointer event is stopped exactly when the
    label list takes it: on a mouse-down with the primary button when
    Control is not held and [onMouseDown] of the list answers [true], on a
    mouse-move when [onMouseMove] of the list answers [true], and never on
    a mouse-up. *)
Theorem pointer_events_and_propagation e w :
  let p := eval (getMousePos e) w in
  let ids := eval (fetchHandleId p) w in
  let size := getCurrentImageSize (session_state (session w)) in
  let held := truthy_flag (_keyDownMap (this w) !! "Control") in
  let consumed :=
    fst (labels_onMouseDown p (fst ids) (snd ids) (_labels (this w))) in
  let repaint :=
    fst (labels_onMouseMove p size (fst ids) (snd ids) (_labels (this w))) in
  (button e = 0 ->
   List.filter is_StopPropagation (emitted (onMouseDown e) w)
   = (if negb held && consumed then [StopPropagation e] else []))
  /\ List.filter is_StopPropagation (emitted (onMouseUp e) w) = []
  /\ List.filter is_StopPropagation (emitted (onMouseMove e) w)
     = (if repaint then [StopPropagation e] else []).
Proof.
  intros p ids size held consumed repaint. split; [|split].
  - intros Hb. rewrite (emitted_onMouseDown e w Hb). fold p ids held consumed.
    rewrite List.filter_app, drawing_no_stop.
    destruct held; [reflexivity|].
    rewrite !List.filter_app, sampling_no_stop.
    destruct consumed; reflexivity.
  - destruct (Z.eq_dec (button e) 0) as [Hb|Hb].
    + rewrite (emitted_onMouseUp e w Hb).
      rewrite !List.filter_app, sampling_no_stop, drawing_no_stop.
      reflexivity.
    + unfold emitted.
      destruct (non_primary_button_is_ignored_frame e w Hb) as [_ ->].
      rewrite <- (app_nil_r (trace w)) at 2.
      rewrite skipn_length_app. reflexivity.
  - rewrite (emitted_onMouseMove e w). fold p ids size repaint.
    rewrite !List.filter_app, sampling_no_stop.
    replace (List.filter is_StopPropagation
               (if truthy_flag (_keyDownMap (this w) !! "Control")
                then [] else cursor_reset (this w))) with (@nil Effect)
      by (destruct (truthy_flag _); [reflexivity|];
          symmetry; apply cursor_reset_no_stop).
    destruct repaint; [|reflexivity].
    cbn. rewrite drawing_no_stop. reflexivity.
Qed.

(** ** Edges of the [ref] callbacks *)

(** X9.  When the control canvas that React hands over has no 2d context,
    the viewer takes the canvas and drops the context it had: from then on
    [redraw] draws nothing and every hit test answers [(-1, 0)] without
    reading a canvas. *)
Theorem control_canvas_without_context
    (c : HTMLCanvasElement) (d : HTMLDivElement) (p : Vector2D) w :
  display (this w) = Some d ->
  getContext2d c = None ->
  let w1 := exec (controlCanvasRef (Some c)) w in
  controlCanvas (this w1) = Some c
  /\ controlContext (this w1) = None
  /\ emitted (controlCanvasRef (Some c)) w = []
  /\ exec redraw w1 = w1
  /\ fetchHandleId p w1 = ((-1, 0), w1).
Proof.
  intros Hd Hc w1.
  assert (Hw1 : w1 = exec (modify_this (set_controlCanvas c)) w).
  { subst w1. unfold controlCanvasRef. run. rewrite Hd, Hc. reflexivity. }
  assert (Hx : controlContext (this w1) = None).
  { rewrite Hw1. run. cbn. exact Hc. }
  split; [rewrite Hw1; reflexivity|]. split; [exact Hx|]. split; [|split].
  - apply emitted_app. fold w1. rewrite Hw1. run. rewrite app_nil_r.
    reflexivity.
  - unfold exec. rewrite redraw_run, Hx.
    destruct (labelCanvas (this w1)), (labelContext (this w1)),
      (controlCanvas (this w1)); reflexivity.
  - unfold fetchHandleId. run. rewrite Hx. reflexivity.
Qed.

Lemma truthy_number_zero (n : number) :
  number_eq n 0 -> truthy_number n = false.
Proof.
  destruct n as [q| | |]; cbn; try contradiction.
  intros Hq. apply Qeq_bool_iff in Hq. rewrite Hq. reflexivity.
Qed.

(** X10.  While the display has zero width or zero height, a [ref]
    callback takes the canvas and its context but does not rescale: the
    display variables, the canvases of the page and the log stay as they
    were, whatever scale the store asks for. *)
Theorem zero_sized_display_is_not_scaled
    (c : HTMLCanvasElement) (d : HTMLDivElement) w :
  display (this w) = Some d ->
  number_eq (rect_width (div_rect d)) 0
  \/ number_eq (rect_height (div_rect d)) 0 ->
  exec (controlCanvasRef (Some c)) w
  = exec (modify_this (set_controlCanvas c)) w
  /\ exec (labelCanvasRef (Some c)) w = exec (modify_this (set_labelCanvas c)) w
  /\ (let w1 := exec (labelCanvasRef (Some c)) w in
      (canvasWidth (this w1), canvasHeight (this w1),
       displayToImageRatio (this w1), scale (this w1))
      = (canvasWidth (this w), canvasHeight (this w),
         displayToImageRatio (this w), scale (this w))
      /\ raster w1 = raster w /\ trace w1 = trace w).
Proof.
  intros Hd Hz.
  assert (Hsize : truthy_number (rect_width (div_rect d))
                  && truthy_number (rect_height (div_rect d)) = false).
  { destruct Hz as [Hz|Hz]; rewrite (truthy_number_zero _ Hz);
      [reflexivity|apply andb_false_r]. }
  assert (Hl : exec (labelCanvasRef (Some c)) w
               = exec (modify_this (set_labelCanvas c)) w).
  { unfold labelCanvasRef. run. rewrite Hd, Hsize.
    destruct (getContext2d c); reflexivity. }
  split; [|split].
  - unfold controlCanvasRef. run. rewrite Hd, Hsize.
    destruct (getContext2d c); reflexivity.
  - exact Hl.
  - cbv zeta. rewrite Hl. run. cbn. repeat split.
Qed.

(** ** Asking twice for the same scale *)

(** X11.  When a request has been applied, a request for the same scale
    that follows it, for whatever canvas, is applied with zoom ratio 1:
    [updateScale] divides the requested scale by the scale it has just
    stored.  So of two calls in a row for one state of the store, as one
    render makes for the control canvas and for the label canvas, only the
    first can carry a zoom. *)
Theorem repeated_request_has_zoom_ratio_one
    (r r' : ScaleRequest) (d : HTMLDivElement) w :
  reports_requested_scale ->
  display (this w) = Some d ->
  (MIN_SCALE <= req_viewScale r /\ req_viewScale r < MAX_SCALE)%js ->
  ~ number_eq (req_viewScale r) 0 ->
  req_viewScale r' = req_viewScale r ->
  exists z,
    emitted (request r') (exec (request r) w)
    = [CallUpdateCanvasScale d (req_canvas r') (req_context r')
         (getCurrentImageViewerConfig (req_state r')) z (req_upRes r')]
    /\ number_eq z 1.
Proof.
  intros Hnew Hd Hin Hnz Hsame.
  pose proof (guard_accepts_range _ Hin) as Hg.
  set (w1 := exec (request r) w).
  assert (Hd1 : display (this w1) = Some d).
  { subst w1. rewrite (request_applied r d w Hd Hg). cbn [this].
    destruct (set_scale_fields_scale
                (fst (updateCanvasScale d (req_canvas r) (req_context r)
                        (getCurrentImageViewerConfig (req_state r))
                        (req_viewScale r / scale (this w))%js (req_upRes r)
                        (raster w))) (this w)) as (_ & _ & _ & _ & Hdd).
    rewrite Hdd. exact Hd. }
  assert (Hs1 : scale (this w1) = req_viewScale r).
  { subst w1. rewrite (request_applied r d w Hd Hg). cbn [this].
    destruct (set_scale_fields_scale
                (fst (updateCanvasScale d (req_canvas r) (req_context r)
                        (getCurrentImageViewerConfig (req_state r))
                        (req_viewScale r / scale (this w))%js (req_upRes r)
                        (raster w))) (this w)) as (Hss & _).
    rewrite Hss. apply Hnew. exact Hg. }
  assert (Hg' : guard_passes (req_viewScale r') = true)
    by (rewrite Hsame; exact Hg).
  exists (req_viewScale r' / scale (this w1))%js. split.
  - apply emitted_app. rewrite (request_applied r' d w1 Hd1 Hg').
    reflexivity.
  - rewrite Hs1, Hsame. destruct Hin as [Hlo _].
    destruct (req_viewScale r) as [q| | |]; cbn in Hlo; try discriminate.
    cbn in Hnz. cbn.
    destruct (Qeq_bool q 0) eqn:Hz.
    + exfalso. apply Hnz. apply Qeq_bool_iff. exact Hz.
    + cbn. unfold Qdiv. apply Qmult_inv_r. exact Hnz.
Qed.

(** ** An update *)

(** X12.  [componentDidUpdate] takes the display from the props, lets the
    label list rebuild itself from the state of the store for the selected
    item, and only then redraws: with the canvases in place the frame it
    paints is that of the rebuilt list. *)
Theorem update_rebuilds_then_redraws w :
  let st := session_state (session w) in
  let rebuilt :=
    labels_updateState st (select_item (user_select st)) (_labels (this w)) in
  let w1 := exec componentDidUpdate w in
  display (this w1) = props_display w
  /\ _labels (this w1) = rebuilt
  /\ emitted componentDidUpdate w
     = LabelsUpdateState st (select_item (user_select st)) :: drawing (this w)
  /\ (forall lc lx cc cx,
        labelCanvas (this w) = Some lc ->
        labelContext (this w) = Some lx ->
        controlCanvas (this w) = Some cc ->
        controlContext (this w) = Some cx ->
        raster w1
        = labels_redraw lx cx
            (displayToImageRatio (this w) * UP_RES_RATIO)%js rebuilt
            (clearCanvas cc cx (clearCanvas lc lx (raster w)))).
Proof.
  intros st rebuilt w1.
  split; [subst w1; rewrite componentDidUpdate_this; reflexivity|].
  split; [subst w1; rewrite componentDidUpdate_this; reflexivity|].
  assert (Hrun : componentDidUpdate w
                 = (tt, exec redraw
                          (with_labels rebuilt
                             (logged [LabelsUpdateState st
                                        (select_item (user_select st))]
                                (exec (modify_this
                                         (set_display (props_display w))) w))))).
  { unfold componentDidUpdate, updateState, _labels_updateState. run.
    match goal with |- context [redraw ?x] => rewrite (redraw_exec x) end.
    reflexivity. }
  split.
  - apply emitted_app. unfold exec at 1. rewrite Hrun. cbn [snd].
    rewrite redraw_trace. unfold with_labels, logged. run.
    rewrite <- app_assoc. reflexivity.
  - intros lc lx cc cx H1 H2 H3 H4. subst w1. unfold exec at 1.
    rewrite Hrun. cbn [snd]. unfold exec. rewrite redraw_run.
    unfold with_labels, logged. run. cbn. rewrite H1, H2, H3, H4.
    reflexivity.
Qed.

(** ** The attributes of the tool bar *)

Lemma array_get_of_nat {A} (l : list A) (k : nat) :
  array_get l (Z.of_nat k) = nth_error l k.
Proof.
  unfold array_get. destruct (Z.ltb_spec (Z.of_nat k) 0) as [Hlt|_]; [lia|].
  rewrite Nat2Z.id. reflexivity.
Qed.

(** The loop of [getAttributeIndex], started at index [i] with [acc] found
    so far: it ends with [acc] when nothing in the rest has the name, and
    with the index of the last attribute of that name otherwise. *)
Lemma getAttributeIndex_from_spec (name : string) (rest : list Attribute) :
  forall i acc,
    (getAttributeIndex_from i acc rest name = acc
     /\ Forall (fun a => attr_name a <> name) rest)
    \/ (exists k a,
          getAttributeIndex_from i acc rest name = i + Z.of_nat k
          /\ nth_error rest k = Some a
          /\ attr_name a = name
          /\ forall k' b,
               (k < k')%nat -> nth_error rest k' = Some b ->
               attr_name b <> name).
Proof.
  induction rest as [|a rest IH]; intros i acc; cbn [getAttributeIndex_from].
  - left. split; [reflexivity|constructor].
  - destruct (String.eqb_spec (attr_name a) name) as [Heq|Hne].
    + destruct (IH (i + 1) i) as [[Hr Hall]|(k & b & Hr & Hk & Hb & Hlast)].
      * right. exists 0%nat, a. rewrite Hr. cbn.
        split; [lia|]. split; [reflexivity|]. split; [exact Heq|].
        intros k' b0 Hlt Hk'. destruct k' as [|k']; [lia|]. cbn in Hk'.
        rewrite Forall_forall in Hall. apply Hall.
        apply list_elem_of_In. eapply nth_error_In. exact Hk'.
      * right. exists (S k), b. rewrite Hr. cbn [nth_error].
        split; [lia|]. split; [exact Hk|]. split; [exact Hb|].
        intros k' b0 Hlt Hk'. destruct k' as [|k']; [lia|]. cbn in Hk'.
        apply (Hlast k' b0); [lia|exact Hk'].
    + destruct (IH (i + 1) acc) as [[Hr Hall]|(k & b & Hr & Hk & Hb & Hlast)].
      * left. split; [exact Hr|]. constructor; assumption.
      * right. exists (S k), b. rewrite Hr. cbn [nth_error].
        split; [lia|]. split; [exact Hk|]. split; [exact Hb|].
        intros k' b0 Hlt Hk'. destruct k' as [|k']; [lia|]. cbn in Hk'.
        apply (Hlast k' b0); [lia|exact Hk'].
Qed.

Lemma getAttributeIndex_cases (all : list Attribute) (name : string) :
  (getAttributeIndex all name = -1
   /\ array_get all (getAttributeIndex all name) = None
   /\ Forall (fun a => attr_name a <> name) all)
  \/ (exists a,
        getAttributeIndex all name <> -1
        /\ array_get all (getAttributeIndex all name) = Some a
        /\ attr_name a = name
        /\ In a all).
Proof.
  unfold getAttributeIndex.
  destruct (getAttributeIndex_from_spec name all 0 (-1))
    as [[Hr Hall]|(k & a & Hr & Hk & Ha & Hlast)]; rewrite Hr.
  - left. split; [reflexivity|]. split; [reflexivity|exact Hall].
  - right. exists a. rewrite Z.add_0_l, array_get_of_nat.
    split; [lia|]. split; [exact Hk|]. split; [exact Ha|].
    eapply nth_error_In. exact Hk.
Qed.

(** X13.  [getAttributeIndex] answers [-1] exactly when no attribute has
    the name; otherwise it answers the index of an attribute of that name
    and no attribute after it has the name: of several attributes with one
    name it finds the last. *)
Theorem getAttributeIndex_finds_the_last_match
    (all : list Attribute) (name : string) :
  let i := getAttributeIndex all name in
  (i = -1 <-> Forall (fun a => attr_name a <> name) all)
  /\ (i <> -1 ->
      exists a,
        array_get all i = Some a
        /\ attr_name a = name
        /\ forall j b, i < j -> array_get all j = Some b -> attr_name b <> name).
Proof.
  intros i. subst i. unfold getAttributeIndex.
  destruct (getAttributeIndex_from_spec name all 0 (-1))
    as [[Hr Hall]|(k & a & Hr & Hk & Ha & Hlast)]; rewrite Hr.
  - split; [split; auto|]. intros Hne. contradiction.
  - split.
    + split; [lia|]. intros Hall. exfalso.
      rewrite Forall_forall in Hall. apply (Hall a); [|exact Ha].
      apply list_elem_of_In. eapply nth_error_In. exact Hk.
    + intros _. exists a. rewrite Z.add_0_l, array_get_of_nat.
      split; [exact Hk|]. split; [exact Ha|].
      intros j b Hlt Hj. unfold array_get in Hj.
      destruct (Z.ltb_spec j 0) as [Hneg|Hpos]; [discriminate|].
      apply (Hlast (Z.to_nat j) b); [lia|exact Hj].
Qed.

Lemma indexOf_from_absent (l : list string) (x : string) (i : Z) :
  ~ In x l -> indexOf_from i l x = -1.
Proof.
  revert i. induction l as [|y l IH]; intros i Hn; [reflexivity|].
  cbn. destruct (String.eqb_spec y x) as [->|_].
  - exfalso. apply Hn. left. reflexivity.
  - apply IH. intros Hin. apply Hn. right. exact Hin.
Qed.

Lemma handleAttributeToggle_run
    (all : list Attribute) (name alignment : string) w :
  handleAttributeToggle all name alignment w
  = (Some tt,
     match array_get all (getAttributeIndex all name) with
     | Some a =>
       dispatching
         (addLabelTag (getAttributeIndex all name)
            (indexOf (attr_values a) alignment)) w
     | None => w
     end).
Proof.
  unfold handleAttributeToggle.
  destruct (getAttributeIndex_cases all name)
    as [(Hi & Hg & _)|(a & Hi & Hg & _)].
  - rewrite Hg, Hi. reflexivity.
  - destruct (Z.eqb_spec (getAttributeIndex all name) (-1)) as [Hm|_];
      [contradiction|].
    rewrite Hg. reflexivity.
Qed.

(** X14.  [handleAttributeToggle] never fails on the attribute it looks
    up.  For a name that no attribute has it does nothing; for a name that
    some attribute has it hands the store exactly one action,
    [addLabelTag] with the index of the last attribute of that name and the
    position of the alignment among its values, and changes nothing
    else. *)
Theorem attribute_toggle_dispatches_one_tag
    (all : list Attribute) (name alignment : string) w :
  let i := getAttributeIndex all name in
  eval (handleAttributeToggle all name alignment) w = Some tt
  /\ (Forall (fun a => attr_name a <> name) all ->
      exec (handleAttributeToggle all name alignment) w = w)
  /\ ((exists a, In a all /\ attr_name a = name) ->
      exists a,
        array_get all i = Some a
        /\ attr_name a = name
        /\ exec (handleAttributeToggle all name alignment) w
           = dispatching (addLabelTag i (indexOf (attr_values a) alignment)) w).
Proof.
  intros i. unfold eval, exec. rewrite handleAttributeToggle_run.
  cbn [fst snd]. split; [reflexivity|]. fold i.
  destruct (getAttributeIndex_cases all name)
    as [(Hi & Hg & Hall)|(a & Hi & Hg & Ha & Hin)]; fold i in Hi, Hg.
  - split; [intros _; rewrite Hg; reflexivity|].
    intros (a & Hin & Ha). exfalso. rewrite Forall_forall in Hall.
    apply (Hall a); [apply list_elem_of_In, Hin|exact Ha].
  - split.
    + intros Hall. exfalso. rewrite Forall_forall in Hall.
      apply (Hall a); [apply list_elem_of_In, Hin|exact Ha].
    + intros _. exists a. rewrite Hg. repeat split. exact Ha.
Qed.

(** X15.  An alignment that is not among the values of the attribute is
    not rejected: the action is dispatched with [-1] as the selected
    index. *)
Theorem unknown_alignment_is_dispatched_as_minus_one
    (all : list Attribute) (name alignment : string) (a : Attribute) w :
  array_get all (getAttributeIndex all name) = Some a ->
  ~ In alignment (attr_values a) ->
  exec (handleAttributeToggle all name alignment) w
  = dispatching (addLabelTag (getAttributeIndex all name) (-1)) w.
Proof.
  intros Hg Hn. unfold exec. rewrite handleAttributeToggle_run, Hg.
  cbn [snd]. unfold indexOf. rewrite indexOf_from_absent by exact Hn.
  reflexivity.
Qed.

Lemma dispatching_changes (a : Action) w : dispatching a w <> w.
Proof.
  intros Heq.
  assert (Hlen : length (dispatched (session (dispatching a w)))
                 = length (dispatched (session w))) by (rewrite Heq; reflexivity).
  unfold dispatching, Session_dispatch in Hlen. cbn in Hlen.
  rewrite length_app in Hlen. cbn in Hlen. lia.
Qed.

(** X16.  The key handler of the tool bar changes something exactly when
    the key is Backspace and a label is selected: every other key, and
    Backspace without a selection, leaves the store and the page as they
    were. *)
Theorem only_backspace_on_a_selection_dispatches (k : KeyboardEvent) w :
  exec (ToolBar_keyDownHandler k) w <> w
  <-> key k = "Backspace"
      /\ 0 <= select_label (user_select (session_state (session w))).
Proof.
  unfold ToolBar_keyDownHandler.
  destruct (String.eqb_spec (key k) "Backspace") as [Hk|Hk].
  - run.
    destruct (Z.leb_spec 0
                (select_label (user_select (session_state (session w)))))
      as [Hs|Hs].
    + split; [intros _; split; assumption|].
      intros _. apply dispatching_changes.
    + split; [intros Hne; exfalso; apply Hne; reflexivity|].
      intros [_ Hge]. lia.
  - split; [intros Hne; exfalso; apply Hne; reflexivity|].
    intros [Heq _]. contradiction.
Qed.

(** ** Control, from the keyboard to the pointer *)

Lemma getMousePos_congr e w1 w2 :
  display_state (this w1) = display_state (this w2) ->
  eval (getMousePos e) w1 = eval (getMousePos e) w2.
Proof.
  unfold display_state. intros [= _ _ Hlc _ Hd Hw Hh Hr _].
  unfold getMousePos. run. rewrite Hlc, Hd, Hw, Hh, Hr.
  destruct (display (this w2)), (labelCanvas (this w2)); reflexivity.
Qed.

Lemma fetchHandleId_congr p w1 w2 :
  display_state (this w1) = display_state (this w2) ->
  raster w1 = raster w2 ->
  eval (fetchHandleId p) w1 = eval (fetchHandleId p) w2.
Proof.
  unfold display_state. intros [= _ Hcx _ _ _ _ _ Hr _] Hpx.
  unfold fetchHandleId. run. rewrite Hcx, Hr.
  destruct (controlContext (this w2)); [|reflexivity].
  destruct (toCanvasCoords p true (displayToImageRatio (this w2))).
  cbn. rewrite Hpx. reflexivity.
Qed.

Lemma emitted_then_ret {A} (m : M A) w :
  emitted (m ;;; ret tt) w = emitted m w.
Proof.
  unfold emitted, exec, bind, ret. destruct (m w) as [a w1]. reflexivity.
Qed.

Lemma press_while_listening e keys fs w :
  dispatchEvent (MouseDom "mousedown" (OverCanvas LabelCanvasKey) e)
    (listening keys fs w)
  = (onMouseDown e ;;; ret tt) (listening keys fs w).
Proof. reflexivity. Qed.

Lemma listening_keys keys fs w :
  _keyDownMap (this (listening keys fs w)) = keys.
Proof. reflexivity. Qed.

Lemma keyup_while_listening (k : KeyboardEvent) keys fs w :
  dispatchEvent (KeyDom "keyup" k) (listening keys fs w)
  = (onKeyUp k ;;; ret tt) (listening keys fs w).
Proof. reflexivity. Qed.

(** X17.  On a page where only the viewer listens, holding Control down
    turns a press with the primary button on the label canvas into a pan:
    nothing is forwarded to the label list.  After Control is released the
    next press is forwarded again. *)
Theorem control_key_gates_the_press e w :
  document_listeners w = [] ->
  button e = 0 ->
  let control := mkKeyboardEvent "Control" in
  let press := MouseDom "mousedown" (OverCanvas LabelCanvasKey) e in
  let held :=
    exec (componentDidMount ;;; dispatchEvent (KeyDom "keydown" control)) w in
  let released := exec (dispatchEvent (KeyDom "keyup" control)) held in
  List.filter is_forward (emitted (dispatchEvent press) held) = []
  /\ List.filter is_forward (emitted (dispatchEvent press) released)
     = [LabelsOnMouseDown (eval (getMousePos e) w)
          (fst (eval (fetchHandleId (eval (getMousePos e) w)) w))
          (snd (eval (fetchHandleId (eval (getMousePos e) w)) w))].
Proof.
  intros Hdoc Hb control press held released.
  assert (Hheld :
    held = listening (<["Control" := true]> (_keyDownMap (this w))) [] w).
  { subst held. unfold componentDidMount, dispatchEvent, observers. run.
    rewrite Hdoc. cbn. unfold listening. rewrite app_nil_r. reflexivity. }
  assert (Hrel :
    released
    = listening
        (delete "Control" (<["Control" := true]> (_keyDownMap (this w))))
        (cursor_reset (this w)) w).
  { subst released. rewrite Hheld. unfold exec.
    rewrite keyup_while_listening. unfold bind. rewrite onKeyUp_run.
    cbn [snd ret]. unfold listening, logged, holding, cursor_reset. cbn.
    rewrite app_nil_r. reflexivity. }
  split.
  - rewrite Hheld. subst press. unfold emitted, exec.
    rewrite press_while_listening.
    change (List.filter is_forward
              (emitted (onMouseDown e ;;; ret tt)
                 (listening (<["Control" := true]> (_keyDownMap (this w)))
                    [] w)) = []).
    rewrite emitted_then_ret, (emitted_onMouseDown e _ Hb).
    rewrite listening_keys, lookup_insert_eq. cbn [truthy_flag from_option id app].
    apply drawing_no_forward.
  - rewrite Hrel. subst press. unfold emitted, exec.
    rewrite press_while_listening.
    change (List.filter is_forward
              (emitted (onMouseDown e ;;; ret tt)
                 (listening
                    (delete "Control"
                       (<["Control" := true]> (_keyDownMap (this w))))
                    (cursor_reset (this w)) w)) = [LabelsOnMouseDown
       (eval (getMousePos e) w)
       (fst (eval (fetchHandleId (eval (getMousePos e) w)) w))
       (snd (eval (fetchHandleId (eval (getMousePos e) w)) w))]).
    rewrite emitted_then_ret, (emitted_onMouseDown e _ Hb).
    rewrite listening_keys, lookup_delete_eq. cbn [truthy_flag from_option].
    rewrite (getMousePos_congr e _ w) by reflexivity.
    rewrite (fetchHandleId_congr _ _ w) by reflexivity.
    rewrite <- !app_assoc. apply filter_forward_single.
    + apply sampling_no_forward.
    + rewrite List.filter_app, drawing_no_forward.
      destruct (fst _); reflexivity.
    + reflexivity.
Qed.

(** ** The frame after a release *)

(** X20.  With the canvases in place, a release with the primary button
    tests the hit on the frame as it was when the event arrived, and the
    frame it leaves is the label list after its [onMouseUp], painted on
    the two cleared canvases. *)
Theorem release_repaints_the_committed_list
    e w (lc cc : HTMLCanvasElement) (lx cx : CanvasRenderingContext2D) :
  button e = 0 ->
  labelCanvas (this w) = Some lc ->
  labelContext (this w) = Some lx ->
  controlCanvas (this w) = Some cc ->
  controlContext (this w) = Some cx ->
  let p := eval (getMousePos e) w in
  let xy := toCanvasCoords p true (displayToImageRatio (this w)) in
  let ids :=
    imageDataToHandleId (getImageData cx (fst xy) (snd xy) 4 4 (raster w)) in
  let committed :=
    labels_onMouseUp p (fst ids) (snd ids) (_labels (this w)) in
  _labels (this (exec (onMouseUp e) w)) = committed
  /\ raster (exec (onMouseUp e) w)
     = labels_redraw lx cx (displayToImageRatio (this w) * UP_RES_RATIO)%js
         committed (clearCanvas cc cx (clearCanvas lc lx (raster w))).
Proof.
  intros Hb H1 H2 H3 H4 p xy ids committed.
  assert (Hids : eval (fetchHandleId p) w = ids).
  { unfold fetchHandleId. run. rewrite H4. subst ids xy.
    destruct (toCanvasCoords p true (displayToImageRatio (this w))).
    reflexivity. }
  unfold exec at 1 2. rewrite (onMouseUp_run e w Hb). cbn [snd].
  fold p. rewrite Hids. fold committed. split.
  - rewrite redraw_this. reflexivity.
  - unfold exec. rewrite redraw_run. unfold with_labels, logged. run. cbn.
    rewrite H1, H2, H3, H4. reflexivity.
Qed.

End MoreFacts.

(** * The claims on the sample page *)


Import Sample Scenario.

(** The scenario of the drag, released over the canvas: a box from (10, 10)
    to (50, 60) is committed and the list is idle again. *)
Example drag_released_inside :
  let w := exec (dispatchEvent release_inside) dragging in
  interaction (_labels (this w)) = Idle
  /\ intents (_labels (this w))
     = [CreateShape (mkBox (mkVector2D 10 10) (mkVector2D 50 60))].
Proof. vm_compute. split; reflexivity. Qed.

(** C1, counterexample.  The same drag, released outside the canvas: the
    release reaches no handler and the list is still creating the box. *)
Lemma release_outside_the_canvas_is_not_heard :
  observers release_outside dragging = []
  /\ exec (dispatchEvent release_outside) dragging = dragging
  /\ interaction (_labels (this (exec (dispatchEvent release_outside) dragging)))
     = Creating (mkVector2D 10 10) (mkVector2D 50 60).
Proof. vm_compute. repeat split; reflexivity. Qed.

Lemma mouse_up_is_heard_on_the_label_canvas_only_witness :
  let w1 := exec (componentDidMount ;;; dispatchAll [press; drag]) mounted in
  dispatchEvent release_inside w1 = onMouseUp (mkMouseEvent 0 50 60) w1
  /\ dispatchEvent release_outside w1 = (tt, w1).
Proof.
  destruct (mouse_up_is_heard_on_the_label_canvas_only
              (mkMouseEvent 0 50 60) mounted [press; drag])
    as (_ & Hin & _ & _); [reflexivity|].
  destruct (mouse_up_is_heard_on_the_label_canvas_only
              (mkMouseEvent 0 700 60) mounted [press; drag])
    as (_ & _ & _ & Hout); [reflexivity|].
  split; [exact Hin|exact Hout].
Defined.

(** The sample [updateCanvasScale] reports the requested scale whenever
    the guard of [updateScale] lets it through. *)
Lemma sample_reports_requested_scale : reports_requested_scale.
Proof.
  intros d c x cfg z u px Hg. cbn. unfold canvasScale. cbn [fst snd].
  unfold guard_passes in Hg. apply negb_true_iff in Hg.
  apply orb_false_iff in Hg. destruct Hg as [Hlo Hhi].
  destruct (viewScale cfg) as [q| | |]; cbn in *; try discriminate;
    [|reflexivity].
  rewrite Hlo. cbn. unfold Qlt_bool.
  destruct (Qle_bool q max_scale) eqn:Hle; [reflexivity|]. exfalso.
  assert (Hlt : (max_scale < q)%Q).
  { apply Qnot_le_lt. intros Hc. apply Qle_bool_iff in Hc. congruence. }
  assert (Hge : ~ (max_scale <= q)%Q).
  { intros Hc. apply Qle_bool_iff in Hc. congruence. }
  apply Hge, Qlt_le_weak, Hlt.
Qed.



(** C3, counterexample.  With Control held, a mouse-move over the label
    canvas is forwarded to the label list all the same. *)
Lemma mouse_move_is_forwarded_while_control_is_held :
  eval (isKeyDown "Control") control_held = Some true
  /\ List.filter is_forward (emitted (dispatchEvent drag) control_held)
     = [LabelsOnMouseMove (mkVector2D 50 60) (mkVector2D 640 480) (-1) 0].
Proof. vm_compute. split; reflexivity. Qed.

(** C4, counterexample.  A mouse-up with the secondary button reaches
    [onMouseUp] and is not forwarded; in the middle of a drag the list
    stays as it is. *)
Lemma secondary_mouse_up_is_not_forwarded :
  let up := over_label "mouseup" (mkMouseEvent 2 50 60) in
  observers up dragging = [mouseUpHandler]
  /\ emitted (dispatchEvent up) dragging = []
  /\ exec (dispatchEvent up) dragging = dragging.
Proof. vm_compute. repeat split; reflexivity. Qed.

Lemma primary_mouse_up_is_forwarded_witness :
  List.filter is_forward
    (emitted (onMouseUp (mkMouseEvent 0 50 60))
       (holding {["Control" := true]} dragging))
  = [LabelsOnMouseUp (eval (getMousePos (mkMouseEvent 0 50 60)) dragging)
       (-1) 0].
Proof.
  apply (primary_mouse_up_is_forwarded (mkMouseEvent 0 50 60) dragging
           {["Control" := true]}).
  reflexivity.
Defined.

(** C5, counterexample.  A mouse-down with the secondary button, Control
    not held: no point is computed, no block is read, nothing is
    forwarded. *)
Lemma secondary_mouse_down_is_not_forwarded :
  let down := over_label "mousedown" (mkMouseEvent 2 10 10) in
  eval (isKeyDown "Control") mounted = None
  /\ observers down mounted = [mouseDownHandler]
  /\ emitted (dispatchEvent down) mounted = []
  /\ exec (dispatchEvent down) mounted = mounted.
Proof. vm_compute. repeat split; reflexivity. Qed.

Lemma primary_mouse_down_is_forwarded_witness :
  List.filter is_forward (emitted (onMouseDown (mkMouseEvent 0 10 10)) mounted)
  = [LabelsOnMouseDown (eval (getMousePos (mkMouseEvent 0 10 10)) mounted)
       (-1) 0]
  /\ (let w := exec (controlCanvasRef (Some blind_canvas)) mounted in
      let p := eval (getMousePos (mkMouseEvent 0 10 10)) w in
      p = normalizeMouseCoordinates display0 (canvas_of LabelCanvasKey)
            (canvasWidth (this w)) (canvasHeight (this w))
            (displayToImageRatio (this w)) 10 10
      /\ eval (fetchHandleId p) w = (-1, 0)).
Proof.
  split.
  - apply (primary_mouse_down_is_forwarded (mkMouseEvent 0 10 10) mounted).
    reflexivity.
  - destruct (primary_mouse_down_is_forwarded (mkMouseEvent 0 10 10)
                (exec (controlCanvasRef (Some blind_canvas)) mounted)
                eq_refl)
      as (_ & _ & _ & Hpoint & _ & _ & Hblind).
    split.
    + apply (Hpoint display0 (canvas_of LabelCanvasKey)); reflexivity.
    + apply Hblind. reflexivity.
Defined.

(** C6, counterexample.  After the first render the display, the canvases
    and the contexts are all still null.  A press on the label canvas is
    forwarded at the origin with the pair (-1, 0), the list starts to
    create a shape, and the release commits it as a mutation. *)
Lemma unmounted_press_reaches_the_label_list :
  let w1 := exec (dispatchEvent press) first_render in
  let w2 := exec (dispatchEvent release_inside) w1 in
  (display (this first_render) = None
   /\ labelCanvas (this first_render) = None
   /\ controlCanvas (this first_render) = None
   /\ labelContext (this first_render) = None
   /\ controlContext (this first_render) = None)
  /\ emitted (dispatchEvent press) first_render
     = [LabelsOnMouseDown (mkVector2D 0 0) (-1) 0;
        StopPropagation (mkMouseEvent 0 10 10)]
  /\ interaction (_labels (this w1))
     = Creating (mkVector2D 0 0) (mkVector2D 0 0)
  /\ intents (_labels (this w2))
     = [CreateShape (mkBox (mkVector2D 0 0) (mkVector2D 0 0))].
Proof. vm_compute. repeat split; reflexivity. Qed.

Lemma null_references_are_tolerated_witness :
  redraw first_render = (true, first_render)
  /\ getMousePos (mkMouseEvent 0 10 10) first_render
     = (mkVector2D 0 0, first_render)
  /\ fetchHandleId (mkVector2D 0 0) first_render = ((-1, 0), first_render)
  /\ emitted (onMouseUp (mkMouseEvent 0 10 10)) first_render
     = [LabelsOnMouseUp (mkVector2D 0 0) (-1) 0].
Proof.
  destruct (null_references_are_tolerated first_render)
    as (_ & _ & _ & Hredraw & Hpos & Hid & Hptr).
  split; [|split; [|split]].
  - apply Hredraw. left. reflexivity.
  - apply Hpos. left. reflexivity.
  - apply Hid. reflexivity.
  - apply (Hptr (mkMouseEvent 0 10 10)); reflexivity.
Defined.

(** C7, counterexample.  After the first render the canvases do not exist
    yet: [redraw] clears nothing, draws nothing, and answers [true]. *)
Lemma redraw_answers_true_without_drawing :
  labelCanvas (this first_render) = None
  /\ eval redraw first_render = true
  /\ List.filter is_drawing (emitted redraw first_render) = []
  /\ exec redraw first_render = first_render.
Proof. vm_compute. repeat split; reflexivity. Qed.

Lemma redraw_clears_then_delegates_witness :
  emitted redraw mounted
  = [CallClearCanvas (canvas_of LabelCanvasKey) (mkCtx LabelCanvasKey);
     CallClearCanvas (canvas_of ControlCanvasKey) (mkCtx ControlCanvasKey);
     LabelsRedraw (mkCtx LabelCanvasKey) (mkCtx ControlCanvasKey)
       (displayToImageRatio (this mounted) * UP_RES_RATIO)%js]
  /\ exec redraw first_render = first_render.
Proof.
  destruct (redraw_clears_then_delegates mounted) as (_ & Hall & _).
  destruct (redraw_clears_then_delegates first_render) as (_ & _ & Hnone).
  split.
  - apply (Hall (canvas_of LabelCanvasKey) (mkCtx LabelCanvasKey)
             (canvas_of ControlCanvasKey) (mkCtx ControlCanvasKey));
      reflexivity.
  - apply Hnone. left. reflexivity.
Defined.

Lemma backspace_deletes_the_selected_label_witness :
  dispatched
    (session
       (exec (ToolBar_keyDownHandler (mkKeyboardEvent "Backspace")) selected))
  = [deleteLabel 0 3]
  /\ ToolBar_keyDownHandler (mkKeyboardEvent "Backspace") unselected
     = (tt, unselected).
Proof.
  destruct (backspace_deletes_the_selected_label
              (mkKeyboardEvent "Backspace") selected) as (Hsel & _);
    [reflexivity|].
  destruct (backspace_deletes_the_selected_label
              (mkKeyboardEvent "Backspace") unselected) as (_ & Hnone);
    [reflexivity|].
  split.
  - apply Hsel. discriminate.
  - apply Hnone. reflexivity.
Defined.

Lemma non_primary_button_is_ignored_witness :
  onMouseDown (mkMouseEvent 2 10 10) dragging = (tt, dragging)
  /\ onMouseUp (mkMouseEvent 1 50 60) dragging = (tt, dragging).
Proof.
  split.
  - apply (non_primary_button_is_ignored (mkMouseEvent 2 10 10) dragging).
    discriminate.
  - apply (non_primary_button_is_ignored (mkMouseEvent 1 50 60) dragging).
    discriminate.
Defined.

(** C9 on the sample page: the listeners of the viewer are still there
    after its unmount, those of the tool bar are not. *)
Example listeners_after_unmount :
  document_listeners
    (exec (componentDidMount ;;; componentWillUnmount) unselected)
  = [("keydown", keyDownHandler); ("keyup", keyUpHandler)]
  /\ document_listeners
       (exec (ToolBar_componentDidMount ;;; ToolBar_componentWillUnmount)
          unselected)
     = [].
Proof. vm_compute. split; reflexivity. Qed.

(** * The further properties on the sample page *)

Example life_of_a_viewer :
  let w := exec (performAll busy) mounted in
  scale (this w) = 2%Q
  /\ eval (isKeyDown "Shift") w = Some true
  /\ interaction (_labels (this w)) = Idle.
Proof. vm_compute. repeat split; reflexivity. Qed.

Lemma key_press_release_round_trip_witness :
  _keyDownMap
    (this (exec (onKeyDown (mkKeyboardEvent "Control")
                 ;;; onKeyUp (mkKeyboardEvent "Control")) mounted))
  = _keyDownMap (this mounted).
Proof.
  apply (key_press_release_round_trip (mkKeyboardEvent "Control") mounted).
  reflexivity.
Defined.

Lemma scale_is_guarded_for_life_witness :
  scale (this (exec (performAll busy) mounted)) = scale (this mounted)
  \/ (MIN_SCALE <= scale (this (exec (performAll busy) mounted))
      /\ scale (this (exec (performAll busy) mounted)) < MAX_SCALE)%js
  \/ scale (this (exec (performAll busy) mounted)) = NaN.
Proof.
  apply (scale_is_guarded_for_life busy mounted).
  exact sample_reports_requested_scale.
Defined.

Lemma canvas_references_are_never_reset_witness :
  is_Some (labelCanvas (this (exec (performAll busy) mounted)))
  /\ is_Some (controlCanvas (this (exec (performAll busy) mounted))).
Proof.
  destruct (canvas_references_are_never_reset busy mounted) as [Hl Hc].
  split.
  - apply Hl. exists (canvas_of LabelCanvasKey). reflexivity.
  - apply Hc. exists (canvas_of ControlCanvasKey). reflexivity.
Defined.

Lemma isKeyDown_is_true_or_undefined_witness :
  eval (isKeyDown "Shift") (exec (performAll busy) unselected) = None
  \/ eval (isKeyDown "Shift") (exec (performAll busy) unselected) = Some true.
Proof.
  apply (isKeyDown_is_true_or_undefined busy "Shift" unselected).
  intros k b Hk. cbn in Hk. rewrite lookup_empty in Hk. discriminate.
Defined.

Lemma pointer_events_and_repaint_witness :
  List.filter is_drawing (emitted (onMouseDown (mkMouseEvent 0 10 10)) mounted)
  = drawing (this mounted)
  /\ List.filter is_drawing
       (emitted (onMouseUp (mkMouseEvent 0 10 10)) mounted)
     = drawing (this mounted).
Proof.
  destruct (pointer_events_and_repaint (mkMouseEvent 0 10 10) mounted)
    as [Hprimary _].
  apply Hprimary. reflexivity.
Defined.

Lemma pointer_events_and_propagation_witness :
  List.filter is_StopPropagation
    (emitted (onMouseDown (mkMouseEvent 0 10 10)) control_held)
  = [].
Proof.
  destruct (pointer_events_and_propagation (mkMouseEvent 0 10 10) control_held)
    as [Hdown _].
  apply Hdown. reflexivity.
Defined.

Lemma control_canvas_without_context_witness :
  let w1 := exec (controlCanvasRef (Some blind_canvas)) mounted in
  controlCanvas (this w1) = Some blind_canvas
  /\ controlContext (this w1) = None
  /\ emitted (controlCanvasRef (Some blind_canvas)) mounted = []
  /\ exec redraw w1 = w1
  /\ fetchHandleId (mkVector2D 10 10) w1 = ((-1, 0), w1).
Proof.
  apply (control_canvas_without_context blind_canvas display0
           (mkVector2D 10 10) mounted); reflexivity.
Defined.

Lemma zero_sized_display_is_not_scaled_witness :
  exec (labelCanvasRef (Some (canvas_of LabelCanvasKey))) flat
  = exec (modify_this (set_labelCanvas (canvas_of LabelCanvasKey))) flat.
Proof.
  apply (zero_sized_display_is_not_scaled (canvas_of LabelCanvasKey)
           flat_display flat).
  - reflexivity.
  - left. reflexivity.
Defined.

Lemma repeated_request_has_zoom_ratio_one_witness :
  exists z,
    emitted (request (ask 2)) (exec (request (ask 2)) mounted)
    = [CallUpdateCanvasScale display0 (req_canvas (ask 2))
         (req_context (ask 2))
         (getCurrentImageViewerConfig (req_state (ask 2))) z
         (req_upRes (ask 2))]
    /\ number_eq z 1.
Proof.
  apply (repeated_request_has_zoom_ratio_one (ask 2) (ask 2) display0 mounted).
  - exact sample_reports_requested_scale.
  - reflexivity.
  - split; vm_compute; reflexivity.
  - vm_compute. discriminate.
  - reflexivity.
Defined.

Lemma update_rebuilds_then_redraws_witness :
  raster (exec componentDidUpdate dragging)
  = labels_redraw (mkCtx LabelCanvasKey) (mkCtx ControlCanvasKey)
      (displayToImageRatio (this dragging) * UP_RES_RATIO)%js
      (labels_updateState (session_state (session dragging))
         (select_item (user_select (session_state (session dragging))))
         (_labels (this dragging)))
      (clearCanvas (canvas_of ControlCanvasKey) (mkCtx ControlCanvasKey)
         (clearCanvas (canvas_of LabelCanvasKey) (mkCtx LabelCanvasKey)
            (raster dragging))).
Proof.
  destruct (update_rebuilds_then_redraws dragging) as (_ & _ & _ & Hframe).
  apply (Hframe (canvas_of LabelCanvasKey) (mkCtx LabelCanvasKey)
           (canvas_of ControlCanvasKey) (mkCtx ControlCanvasKey));
    reflexivity.
Defined.

Lemma getAttributeIndex_finds_the_last_match_witness :
  exists a,
    array_get attributes0 (getAttributeIndex attributes0 "Occluded") = Some a
    /\ attr_name a = "Occluded"
    /\ forall j b,
         getAttributeIndex attributes0 "Occluded" < j ->
         array_get attributes0 j = Some b -> attr_name b <> "Occluded".
Proof.
  destruct (getAttributeIndex_finds_the_last_match attributes0 "Occluded")
    as [_ Hfound].
  apply Hfound. vm_compute. discriminate.
Defined.

Lemma attribute_toggle_dispatches_one_tag_witness :
  exec (handleAttributeToggle attributes0 "Colour" "red") unselected
  = unselected.
Proof.
  destruct (attribute_toggle_dispatches_one_tag attributes0 "Colour" "red"
              unselected) as (_ & Hnone & _).
  apply Hnone. repeat constructor; discriminate.
Defined.

Lemma unknown_alignment_is_dispatched_as_minus_one_witness :
  exec (handleAttributeToggle attributes0 "Weather" "foggy") unselected
  = dispatching (addLabelTag (getAttributeIndex attributes0 "Weather") (-1))
      unselected.
Proof.
  apply (unknown_alignment_is_dispatched_as_minus_one attributes0 "Weather"
           "foggy" (mkAttribute "list" "Weather" ["sunny"; "rainy"; "snowy"])
           unselected).
  - reflexivity.
  - cbn. intros [Hx|[Hx|[Hx|[]]]]; discriminate.
Defined.

Lemma only_backspace_on_a_selection_dispatches_witness :
  exec (ToolBar_keyDownHandler (mkKeyboardEvent "Backspace")) selected
  <> selected.
Proof.
  apply (only_backspace_on_a_selection_dispatches
           (mkKeyboardEvent "Backspace") selected).
  split; [reflexivity|discriminate].
Defined.

Lemma control_key_gates_the_press_witness :
  List.filter is_forward
    (emitted
       (dispatchEvent (over_label "mousedown" (mkMouseEvent 0 10 10)))
       (exec (componentDidMount
              ;;; dispatchEvent (KeyDom "keydown" (mkKeyboardEvent "Control")))
          unselected))
  = [].
Proof.
  apply (control_key_gates_the_press (mkMouseEvent 0 10 10) unselected);
    reflexivity.
Defined.

Lemma toolbar_listener_is_removed_witness :
  exec (ToolBar_componentDidMount ;;; ToolBar_componentWillUnmount) mounted
  = mounted.
Proof.
  apply (toolbar_listener_is_removed mounted).
  vm_compute. intros [Hx|[Hx|[]]]; discriminate.
Defined.

Lemma onDeleteLabel_is_backspace_witness :
  onDeleteLabel selected
  = ToolBar_keyDownHandler (mkKeyboardEvent "Backspace") selected.
Proof.
  apply (onDeleteLabel_is_backspace (mkKeyboardEvent "Backspace") selected).
  reflexivity.
Defined.

Lemma release_repaints_the_committed_list_witness :
  interaction (_labels (this (exec (onMouseUp (mkMouseEvent 0 50 60)) dragging)))
  = Idle.
Proof.
  destruct (release_repaints_the_committed_list (mkMouseEvent 0 50 60) dragging
              (canvas_of LabelCanvasKey) (canvas_of ControlCanvasKey)
              (mkCtx LabelCanvasKey) (mkCtx ControlCanvasKey)
              eq_refl eq_refl eq_refl eq_refl eq_refl)
    as [Hlist _].
  rewrite Hlist. reflexivity.
Defined.
